(** * HSSM: the analytical Wiener first-passage-time likelihood and the LAN bridge

    A shallow embedding of

    - [src/hssm/likelihoods/analytical.py]  (module [Analytical], the pytensor code),
    - [src/hssm/wfpt.py]                    (module [Aesara], the older aesara code),
    - [src/hssm/wfpt/lan/lan.py]            (module [Lan], the JAX bridge),
    - [src/hssm/utils.py]                   (module [Utils]).

    Conventions of the embedding.

    - Floating-point tensors are read over the real numbers [R]: [exp], [ln],
      [sqrt], [sin] and [PI] are the Standard Library's.  Rounding, overflow and
      the IEEE special values (NaN, the infinities) are outside the model.
    - The tensor code is elementwise along the row axis.  A kernel is therefore
      given by its value at one row ([compute_k], [ftt01w_fast], [ftt01w_slow],
      [ftt01w]); the reduction [axis=0] runs over the term index [k], a list.
      Functions that receive the whole data matrix ([logp_ddm], [logp_ddm_sdv])
      map the row computation over the rows.
    - A comparison yields a [bool]; where the source uses it in arithmetic (or
      casts it with [astype]) it becomes [0] or [1] through [floatX].
    - What raises at evaluation time is an explicit [Raise]: the parameter checks
      of [check_parameters] and the maximum over an empty axis.  The series
      are meant for [k_terms >= 1]: with no term the model is the eager
      reading of the graph, which the rewrites of the host need not follow,
      and every statement about a returned value assumes [k_terms >= 1].
    - What Python decides while the graph is built depends on the form of an
      argument, not on its later value: [logp_ddm_sdv] takes [sv] as a number
      or as a tensor variable ([scalar_arg]). *)

From Stdlib Require Import String.
From Stdlib Require Import Reals Lra Lia ZArith Bool List Finite Permutation.
Import ListNotations.

Set Warnings "-register-all".

Open Scope list_scope.
Open Scope R_scope.

(** ** Results of an evaluation *)

Inductive exception : Type :=
| ValueError (msg : string)
| ParameterValueError (msg : string)
| IndexError
| TypeError.

Inductive result (A : Type) : Type :=
| Ok (a : A)
| Raise (e : exception).

Arguments Ok {A} a.
Arguments Raise {A} e.

Definition bind {A B : Type} (m : result A) (f : A -> result B) : result B :=
  match m with
  | Ok a => f a
  | Raise e => Raise e
  end.

Notation "x <- m ;; k" := (bind m (fun x => k))
  (at level 61, m at next level, right associativity).

Fixpoint mapM {A B : Type} (f : A -> result B) (l : list A) : result (list B) :=
  match l with
  | [] => Ok []
  | x :: xs => y <- f x ;; ys <- mapM f xs ;; Ok (y :: ys)
  end.

(** ** Tensor primitives, one entry at a time *)

Definition floatX (b : bool) : R := if b then 1 else 0.

Definition pt_lt (x y : R) : bool := if Rlt_dec x y then true else false.
Definition pt_gt (x y : R) : bool := if Rgt_dec x y then true else false.
Definition pt_le (x y : R) : bool := if Rle_dec x y then true else false.
Definition pt_ge (x y : R) : bool := if Rge_dec x y then true else false.

(** [pt.sum(_, axis=0)] over the term index. *)
Definition pt_sum (l : list R) : R := fold_right Rplus 0 l.

(** [pt.max(_, axis=0)] over the term index; an empty axis has no maximum. *)
Definition pt_max (l : list R) : result R :=
  match l with
  | [] => Raise (ValueError "zero-size array to reduction operation maximum")
  | x :: xs => Ok (fold_left Rmax xs x)
  end.

(** [arange(lo, hi)]: the integers [lo, lo+1, ..., hi-1]. *)
Definition arange (lo hi : Z) : list Z :=
  map (fun i => (lo + Z.of_nat i)%Z) (seq 0 (Z.to_nat (hi - lo))).

(** [floor(n / 2)] and [ceil(n / 2)] of Python's true division by two. *)
Definition floor_half (n : Z) : Z := (n / 2)%Z.
Definition ceil_half (n : Z) : Z := (- ((- n) / 2))%Z.

(** [check_parameters(expr, cond, msg=msg)]: the value, guarded by a check that
    raises [ParameterValueError msg] when the value is evaluated and [cond] is
    false. *)
Definition check_parameters {A : Type} (expr : A) (cond : bool) (msg : string)
  : result A :=
  if cond then Ok expr else Raise (ParameterValueError msg).

(** A row of the data matrix: (response time, response). *)
Definition row : Type := (R * R)%type.

(** ** analytical.py *)

Module Analytical.

Definition LOGP_LB : R := -66.1.

Definition compute_k (rt err : R) : bool :=
  let pi_rt_err := PI * rt * err in
  let _a := 2 * sqrt pi_rt_err * err in
  let _b := 2 + sqrt (-2 * rt * ln _a) in
  let _c := sqrt rt + 1 in
  let _d := Rmax _b _c in
  let _e := floatX (pt_lt _a 1) in
  let ks := _e * _d + (1 - _e) * 2 in
  let __b := 1 / (PI * sqrt rt) in
  let __c := sqrt (-2 * ln pi_rt_err / (PI ^ 2 * rt)) in
  let __d := Rmax __b __c in
  let __e := floatX (pt_lt pi_rt_err 1) in
  let kl := __e * __d + (1 - __e) * __b in
  pt_lt ks kl.

(** The term index of the fast expansion:
    [arange(-floor((k_terms - 1) / 2), ceil((k_terms - 1) / 2) + 1)]. *)
Definition fast_index (k_terms : Z) : list Z :=
  arange (- floor_half (k_terms - 1)) (ceil_half (k_terms - 1) + 1).

Definition ftt01w_fast (tt w : R) (k_terms : Z) : result R :=
  let k := map IZR (fast_index k_terms) in
  let y := map (fun k => w + 2 * k) k in
  let r := map (fun y => - y ^ 2 / (2 * tt)) y in
  c <- pt_max r ;;
  let p := exp c * pt_sum (map (fun yr => fst yr * exp (snd yr - c)) (combine y r)) in
  let p := p / sqrt (2 * PI * tt ^ 3) in
  Ok p.

Definition ftt01w_slow (tt w : R) (k_terms : Z) : R :=
  let k := map IZR (arange 1 (k_terms + 1)) in
  let y := map (fun k => k * sin (k * PI * w)) k in
  let r := map (fun k => - k ^ 2 * PI ^ 2 * tt / 2) k in
  let p := pt_sum (map (fun yr => fst yr * exp (snd yr)) (combine y r)) * PI in
  p.

Definition ftt01w (rt a w err : R) (k_terms : Z) : result R :=
  let tt := rt / a ^ 2 in
  let lambda_rt := floatX (compute_k rt err) in
  p_fast <- ftt01w_fast tt w k_terms ;;
  let p_slow := ftt01w_slow tt w k_terms in
  let p := lambda_rt * p_fast + (1 - lambda_rt) * p_slow in
  Ok p.

(** The density evaluator on a vector of response times. *)
Definition ftt01w_rows (rt : list R) (a w err : R) (k_terms : Z) : result (list R) :=
  mapM (fun rt_i => ftt01w rt_i a w err k_terms) rt.

(** One row of [logp_ddm], before the parameter checks; [a] is already doubled. *)
Definition logp_ddm_row (v a z t err : R) (k_terms : Z) (epsilon : R) (x : row)
  : result R :=
  let rt := Rabs (fst x) in
  let response := snd x in
  let flip := floatX (pt_gt response 0) in
  let v_flipped := flip * (- v) + (1 - flip) * v in
  let z_flipped := flip * (1 - z) + (1 - flip) * z in
  let rt := rt - t in
  let negative_rt := floatX (pt_le rt epsilon) in
  let tt := negative_rt * epsilon + (1 - negative_rt) * rt in
  d <- ftt01w tt a z_flipped err k_terms ;;
  let p := Rmax d (exp LOGP_LB) in
  Ok (negative_rt * LOGP_LB
      + (1 - negative_rt)
        * (ln p
           - v_flipped * a * z_flipped
           - (v_flipped ^ 2 * tt / 2)
           - 2 * ln a)).

Definition logp_ddm (data : list row) (v a z t err : R) (k_terms : Z) (epsilon : R)
  : result (list R) :=
  let a := a * 2 in
  logp <- mapM (logp_ddm_row v a z t err k_terms epsilon) data ;;
  checked_logp <- check_parameters logp (pt_ge a 0) "a >= 0" ;;
  checked_logp <- check_parameters checked_logp (pt_ge z 0) "z >= 0" ;;
  checked_logp <- check_parameters checked_logp (pt_le z 1) "z <= 1" ;;
  Ok checked_logp.

(** One row of [logp_ddm_sdv] (past the test [sv == 0]); [a] is already
    doubled. *)
Definition logp_ddm_sdv_row (v a z t sv err : R) (k_terms : Z) (epsilon : R) (x : row)
  : result R :=
  let rt := Rabs (fst x) in
  let response := snd x in
  let flip := floatX (pt_gt response 0) in
  let v_flipped := flip * (- v) + (1 - flip) * v in
  let z_flipped := flip * (1 - z) + (1 - flip) * z in
  let rt := rt - t in
  let negative_rt := floatX (pt_le rt epsilon) in
  let tt := negative_rt * epsilon + (1 - negative_rt) * rt in
  d <- ftt01w tt a z_flipped err k_terms ;;
  let p := Rmax d (exp LOGP_LB) in
  Ok (negative_rt * LOGP_LB
      + (1 - negative_rt)
        * (ln p
           + ((a * z_flipped * sv) ^ 2
              - 2 * a * v_flipped * z_flipped
              - (v_flipped ^ 2) * tt)
             / (2 * (sv ^ 2) * tt + 2)
           - 0.5 * ln (sv ^ 2 * tt + 1)
           - 2 * ln a)).

(** The argument [sv] as Python holds it when [logp_ddm_sdv] is called: a
    number, or a tensor variable (what the distribution [DDM_SDV] passes)
    whose value is known only when the graph is evaluated. *)
Inductive scalar_arg : Type :=
| PyNumber (x : R)
| TensorVariable (x : R).

(** The value that the argument has when the graph is evaluated. *)
Definition value (s : scalar_arg) : R :=
  match s with
  | PyNumber x => x
  | TensorVariable x => x
  end.

(** [sv == 0] as the [if] statement sees it, when the graph is built.  Two
    numbers are compared by value.  A tensor variable defines no [__eq__]:
    the comparison falls back to identity, and a variable is not the
    number [0], whatever value it takes later. *)
Definition py_eq_zero (s : scalar_arg) : bool :=
  match s with
  | PyNumber x => if Req_dec_T x 0 then true else false
  | TensorVariable _ => false
  end.

Definition logp_ddm_sdv (data : list row) (v a z t : R) (sv : scalar_arg) (err : R)
  (k_terms : Z) (epsilon : R) : result (list R) :=
  if py_eq_zero sv then logp_ddm data v a z t err k_terms epsilon
  else
    let sv := value sv in
    let a := a * 2 in
    logp <- mapM (logp_ddm_sdv_row v a z t sv err k_terms epsilon) data ;;
    checked_logp <- check_parameters logp (pt_ge a 0) "a >= 0" ;;
    checked_logp <- check_parameters checked_logp (pt_ge z 0) "z >= 0" ;;
    checked_logp <- check_parameters checked_logp (pt_le z 1) "z <= 1" ;;
    checked_logp <- check_parameters checked_logp (pt_gt sv 0) "sv > 0" ;;
    Ok checked_logp.

End Analytical.

(** ** wfpt.py *)

Module Aesara.

(** The variables captured by the closure that [decision_func] returns. *)
Record decision_state : Type := {
  internal_rt : option (list R);
  internal_err : option R;
  internal_result : option (list bool)
}.

(** The state of a closure that [decision_func()] has just produced. *)
Definition decision_func : decision_state :=
  {| internal_rt := None; internal_err := None; internal_result := None |}.

(** The body of [inner_func] after the cache test, at one entry of [rt]. *)
Definition lambda_rt (rt err : R) : bool :=
  let ks := 2 + sqrt (-2 * rt * ln (2 * sqrt (2 * PI * rt) * err)) in
  let ks := Rmax ks (sqrt rt + 1) in
  let ks := if pt_lt (2 * sqrt (2 * PI * rt) * err) 1 then ks else 2 in
  let kl := sqrt (-2 * ln (PI * rt * err) / (PI ^ 2 * rt)) in
  let kl := Rmax kl (1 / (PI * sqrt rt)) in
  let kl := if pt_lt (PI * rt * err) 1 then kl else 1 / (PI * sqrt rt) in
  pt_lt ks kl.

(** [np.all(rt == internal_rt) and err == internal_err and internal_result is
    not None]: the previous result is reused when [rt] and [err] did not
    change. *)
Definition cache_hit (st : decision_state) (rt : list R) (err : R)
  : option (list bool) :=
  match internal_rt st, internal_err st, internal_result st with
  | Some rt0, Some err0, Some res =>
      if list_eq_dec Req_dec_T rt rt0
      then if Req_dec_T err err0 then Some res else None
      else None
  | _, _, _ => None
  end.

Definition inner_func (st : decision_state) (rt : list R) (err : R)
  : list bool * decision_state :=
  match cache_hit st rt err with
  | Some res => (res, st)
  | None =>
      let res := map (fun rt_i => lambda_rt rt_i err) rt in
      (res, {| internal_rt := Some rt;
               internal_err := Some err;
               internal_result := Some res |})
  end.

Definition ftt01w_fast (tt w : R) (k_terms : Z) : result R :=
  let k := map IZR (arange (- floor_half (k_terms - 1)) (ceil_half (k_terms - 1) + 1)) in
  let y := map (fun k => w + 2 * k) k in
  let r := map (fun y => - y ^ 2 / 2 / tt) y in
  c <- pt_max r ;;
  let p := exp (c + ln (pt_sum (map (fun yr => fst yr * exp (snd yr - c)) (combine y r)))) in
  let p := p / sqrt (2 * PI * tt ^ 3) in
  Ok p.

Definition ftt01w_slow (tt w : R) (k_terms : Z) : R :=
  let k := map IZR (arange 1 (k_terms + 1)) in
  let y := map (fun k => k * sin (k * PI * w)) k in
  let r := map (fun k => - k ^ 2 * PI ^ 2 * tt / 2) k in
  let p := pt_sum (map (fun yr => fst yr * exp (snd yr)) (combine y r)) * PI in
  p.

(** The last two statements of [ftt01w] at one entry:
    [p = at.switch(lambda_rt, p_fast, p_slow)] and [p * (p > 0)]. *)
Definition ftt01w_entry (a w : R) (k_terms : Z) (x : bool * R) : result R :=
  let tt := snd x / a ^ 2 in
  p_fast <- ftt01w_fast tt w k_terms ;;
  let p_slow := ftt01w_slow tt w k_terms in
  let p := if fst x then p_fast else p_slow in
  Ok (p * floatX (pt_gt p 0)).

(** [ftt01w] calls the module-level closure [decision]; its state is threaded. *)
Definition ftt01w (st : decision_state) (rt : list R) (a w err : R) (k_terms : Z)
  : result (list R) * decision_state :=
  let (lam, st') := inner_func st rt err in
  (mapM (ftt01w_entry a w k_terms) (combine lam rt), st').

(** [ftt01w] as [log_pdf_sv] calls it, with a vector [w] of the length of
    [rt]: the same statements, [w] taken entry by entry. *)
Definition ftt01w_vector_w (st : decision_state) (rt : list R) (a : R)
  (w : list R) (err : R) (k_terms : Z) : result (list R) * decision_state :=
  let (lam, st') := inner_func st rt err in
  (mapM (fun x => ftt01w_entry a (snd x) k_terms (fst x))
        (combine (combine lam rt) w), st').

(** One entry of [logp] in [log_pdf_sv], from the signed response time and
    the density [p] of that entry. *)
Definition log_pdf_sv_entry (v sv a z t : R) (x : R * R) : R :=
  let data := fst x in
  let p := snd x in
  let flip := pt_gt data 0 in
  let v_flipped := if flip then - v else v in
  let z_flipped := if flip then 1 - z else z in
  let rt := Rabs data in
  let rt := rt - t in
  ln p
  + ((a * z_flipped * sv) ^ 2
     - 2 * a * v_flipped * z_flipped
     - (v_flipped ^ 2) * rt)
    / (2 * (sv ^ 2) * rt + 2)
  - ln (sv ^ 2 * rt + 1) / 2
  - 2 * ln a.

Definition log_pdf_sv (st : decision_state) (data : list R) (v sv a z t err : R)
  (k_terms : Z) : result (list R) * decision_state :=
  let flip := map (fun x => pt_gt x 0) data in
  let z_flipped := map (fun f : bool => if f then 1 - z else z) flip in
  let rt := map Rabs data in
  let rt := map (fun x => x - t) rt in
  let (p, st') := ftt01w_vector_w st rt a z_flipped err k_terms in
  (p <- p ;;
   let logp := map (log_pdf_sv_entry v sv a z t) (combine data p) in
   checked_logp <- check_parameters logp (pt_ge sv 0) "sv >= 0" ;;
   checked_logp <- check_parameters checked_logp (pt_ge a 0) "a >= 0" ;;
   Ok checked_logp,
   st').

(** What the closure holds is what it would compute: the saved result is the
    selection for the saved [rt] and [err]. *)
Definition cache_consistent (st : decision_state) : Prop :=
  forall rt0 err0 res,
    internal_rt st = Some rt0 ->
    internal_err st = Some err0 ->
    internal_result st = Some res ->
    res = map (fun rt_i => lambda_rt rt_i err0) rt0.

End Aesara.

(** ** wfpt/lan/lan.py *)

Module Lan.

(** *** The symbolic graph of the host *)

Inductive op : Type := LANLogpOp | LANLogpVJPOp.

(** A variable of the graph: a given input, output [index] of the node
    [Apply(op, inputs, _)], or the null-typed variable that
    [pytensor.gradient.grad_not_implemented(op, x_pos, x)] returns. *)
Inductive variable : Type :=
| Given (name : nat)
| Output (o : op) (inputs : list variable) (index : nat)
| grad_not_implemented (o : op) (x_pos : nat) (x : variable).

Record Apply : Type := {
  node_op : op;
  node_inputs : list variable;
  node_outputs : list variable
}.

(** [LANLogpVJPOp.make_node(data, *dist_params, gz=gz)]: one output for each
    of [inputs[1:-1]]. *)
Definition make_node_vjp (data : variable) (dist_params : list variable)
  (gz : variable) : Apply :=
  let inputs := [data] ++ dist_params ++ [gz] in
  {| node_op := LANLogpVJPOp;
     node_inputs := inputs;
     node_outputs :=
       map (Output LANLogpVJPOp inputs) (seq 0 (length dist_params)) |}.

(** What applying an op hands back: the list of the outputs of the node it
    builds, or, when the node has exactly one output, that variable itself
    (the host's [Op.__call__] without [return_list]). *)
Inductive returned : Type :=
| Single (v : variable)
| Several (vs : list variable).

Definition op_call (node : Apply) : returned :=
  match node_outputs node with
  | [v] => Single v
  | vs => Several vs
  end.

Definition lan_logp_vjp_op (data : variable) (dist_params : list variable)
  (gz : variable) : returned :=
  op_call (make_node_vjp data dist_params gz).

(** [[x] + results]: list concatenation when [results] is a list; a list and
    a tensor variable do not add. *)
Definition list_add (l : list variable) (results : returned)
  : result (list variable) :=
  match results with
  | Several vs => Ok (l ++ vs)
  | Single _ => Raise TypeError
  end.

(** [LANLogpOp.grad(inputs, output_gradients)]; indexing an empty list raises. *)
Definition grad (inputs output_gradients : list variable)
  : result (list variable) :=
  match inputs, output_gradients with
  | data :: dist_params, gz :: _ =>
      let results := lan_logp_vjp_op data dist_params gz in
      output <- list_add [grad_not_implemented LANLogpOp 0 data] results ;;
      Ok output
  | _, _ => Raise IndexError
  end.

(** *** The foreign functions *)

Section Foreign.

(** Arrays of the foreign engine. *)
Variable tensor : Type.

(** [jax.vjp(vmap_logp, data, *dist_params)[1]]: from the cotangent of the
    output to the cotangents of the primal arguments. *)
Variable vjp_fn : tensor -> list tensor -> tensor -> list tensor.

Definition vjp_vmap_logp (data : tensor) (dist_params : list tensor)
  (gz : tensor) : list tensor :=
  skipn 1 (vjp_fn data dist_params gz).

(** [LANLogpVJPOp.perform]: [logp_vjp(inputs[0], *inputs[1:-1], gz=inputs[-1])],
    one result stored per output. *)
Definition perform_vjp (inputs : list tensor) : result (list tensor) :=
  match inputs with
  | data :: rest =>
      match rev rest with
      | gz :: rparams => Ok (vjp_vmap_logp data (rev rparams) gz)
      | [] => Ok (vjp_vmap_logp data [] data)
      end
  | [] => Raise IndexError
  end.

(** [l[i] = v] on a list that has the index. *)
Fixpoint set_cell {A : Type} (i : nat) (v : A) (l : list A) : list A :=
  match l, i with
  | [], _ => []
  | _ :: xs, O => v :: xs
  | x :: xs, S j => x :: set_cell j v xs
  end.

(** The loop of [LANLogpVJPOp.perform]:
    [for i, result in enumerate(results): outputs[i][0] = result], on the
    storage cells of the node, from index [i] on. *)
Fixpoint store_results (i : nat) (results : list tensor)
  (outputs : list (option tensor)) : result (list (option tensor)) :=
  match results with
  | [] => Ok outputs
  | r :: rs =>
      if (i <? length outputs)%nat
      then store_results (S i) rs (set_cell i (Some r) outputs)
      else Raise IndexError
  end.

(** [LANLogpVJPOp.perform(node, inputs, outputs)], cells included. *)
Definition perform_vjp_node (inputs : list tensor)
  (outputs : list (option tensor)) : result (list (option tensor)) :=
  results <- perform_vjp inputs ;;
  store_results 0 results outputs.

End Foreign.

(** *** The pytensor likelihood of [make_pytensor_logp] *)

(** A parameter handed to [logp]: a scalar or a vector. *)
Inductive dist_param : Type :=
| Scalar (x : R)
| Vector (xs : list R).

(** Assigning a value to a column of [n] entries broadcasts a scalar and a
    vector of one entry, takes a vector of [n] entries as it is, and fails
    on any other length. *)
Definition broadcast_column (n : nat) (p : dist_param) : result (list R) :=
  match p with
  | Scalar x => Ok (repeat x n)
  | Vector xs =>
      if (length xs =? n)%nat then Ok xs
      else match xs with
           | [x] => Ok (repeat x n)
           | _ => Raise (ValueError "could not broadcast input array")
           end
  end.

(** The loop [inputs = pt.set_subtensor(inputs[:, i], dist_param)] from
    column [i] on; the matrix is the list of its columns, each of [n]
    entries. *)
Fixpoint set_parameters (n i : nat) (dist_params : list dist_param)
  (inputs : list (list R)) : result (list (list R)) :=
  match dist_params with
  | [] => Ok inputs
  | p :: ps =>
      if (i <? length inputs)%nat
      then col <- broadcast_column n p ;;
           set_parameters n (S i) ps (set_cell i col inputs)
      else Raise IndexError
  end.

(** The matrix that [logp] hands to the network: a column per entry of
    [params_is_reg] and two more, the parameters written to the first
    columns, the data to the last two. *)
Definition logp_inputs (params_is_reg : list bool) (data : list row)
  (dist_params : list dist_param) : result (list (list R)) :=
  let n := length data in
  let inputs := repeat (repeat 0 n) (length params_is_reg + 2) in
  inputs <- set_parameters n 0 dist_params inputs ;;
  Ok (firstn (length inputs - 2) inputs ++ [map fst data; map snd data]).

(** [input_vector] in the [logp] of [make_jax_logp_funcs_from_onnx], for one
    trial: [jnp.concatenate((jnp.array(dist_params), data))]. *)
Definition input_vector (dist_params : list R) (data : list R) : list R :=
  dist_params ++ data.

(** The entry at row [i] of the column that a parameter is written to. *)
Definition param_at (i : nat) (p : dist_param) : R :=
  match p with
  | Scalar x => x
  | Vector [x] => x
  | Vector xs => nth i xs 0
  end.

(** A parameter as a column of [n] entries. *)
Definition column_of (n : nat) (p : dist_param) : list R :=
  map (fun i => param_at i p) (seq 0 n).

(** A parameter that can be assigned to a column of [n] entries. *)
Definition fits (n : nat) (p : dist_param) : Prop :=
  match p with
  | Scalar _ => True
  | Vector xs => length xs = n \/ length xs = 1%nat
  end.

(** *** The vectorised likelihood of [make_jax_logp_funcs_from_onnx] *)

(** The [in_axes] of [vmap_logp]: the data are mapped along their rows, a
    parameter along its entries when it is flagged as a regression and not
    at all otherwise. *)
Definition in_axes (params_is_reg : list bool) : list (option nat) :=
  Some 0%nat
  :: map (fun is_regression : bool => if is_regression then Some 0%nat else None)
       params_is_reg.

(** What [vmap] hands to [logp] for one parameter at trial [i] of [n]: the
    entry [i] of a mapped vector of [n] entries, an unmapped scalar as it
    is.  There is no value ([None], the call fails) for a mapped scalar,
    which has no axis, for a mapped vector of another length than the data,
    and for an unmapped vector, which [jnp.concatenate] cannot join to the
    two entries of the trial. *)
Definition vmap_argument (n : nat) (axis : option nat) (p : dist_param) (i : nat)
  : option R :=
  match axis, p with
  | Some _, Vector xs => if (length xs =? n)%nat then nth_error xs i else None
  | None, Scalar x => Some x
  | _, _ => None
  end.

(** The parameters of trial [i], one axis for each. *)
Fixpoint vmap_arguments (n : nat) (axes : list (option nat))
  (dist_params : list dist_param) (i : nat) : option (list R) :=
  match axes, dist_params with
  | [], [] => Some []
  | axis :: axes, p :: ps =>
      match vmap_argument n axis p i, vmap_arguments n axes ps i with
      | Some x, Some xs => Some (x :: xs)
      | _, _ => None
      end
  | _, _ => None
  end.

(** The [input_vector] that [vmap_logp(data, *dist_params)] builds at trial
    [i]. *)
Definition vmap_input_vector (params_is_reg : list bool) (data : list row)
  (dist_params : list dist_param) (i : nat) : option (list R) :=
  match in_axes params_is_reg with
  | Some _ :: param_axes =>
      match nth_error data i,
            vmap_arguments (length data) param_axes dist_params i with
      | Some x, Some ps => Some (input_vector ps [fst x; snd x])
      | _, _ => None
      end
  | _ => None
  end.

End Lan.

(** ** utils.py *)

Module Utils.

(** What this module raises beyond [exception]. *)
Inductive error : Type :=
| ZeroDivisionError
| Builtin (e : exception).

Inductive outcome (A : Type) : Type :=
| Returns (a : A)
| Raises (e : error).

Arguments Returns {A} a.
Arguments Raises {A} e.

(** *** [_split_array] *)

(** The sizes of the sections of [np.array_split(ary, Nsections)]:
    [extras * [Neach_section + 1] + (Nsections - extras) * [Neach_section]]
    with [Neach_section, extras = divmod(Ntotal, Nsections)]. *)
Definition section_sizes (Ntotal Nsections : Z) : list Z :=
  let Neach_section := (Ntotal / Nsections)%Z in
  let extras := (Ntotal mod Nsections)%Z in
  repeat (Neach_section + 1)%Z (Z.to_nat extras)
  ++ repeat Neach_section (Z.to_nat (Nsections - extras)).

(** The slices [ary[div_points[i] : div_points[i + 1]]] between the
    cumulative sums of the sizes. *)
Fixpoint slices {A : Type} (sizes : list Z) (ary : list A) : list (list A) :=
  match sizes with
  | [] => []
  | size :: rest =>
      firstn (Z.to_nat size) ary :: slices rest (skipn (Z.to_nat size) ary)
  end.

(** The sum of a list of sizes. *)
Definition total (sizes : list Z) : Z := fold_right Z.add 0%Z sizes.

Definition array_split {A : Type} (ary : list A) (Nsections : Z)
  : result (list (list A)) :=
  if (Nsections <=? 0)%Z
  then Raise (ValueError "number sections must be larger than 0.")
  else Ok (slices (section_sizes (Z.of_nat (length ary)) Nsections) ary).

Section SplitArray.

Variable A : Type.

(** [tmp.astype(int)] on one entry. *)
Variable astype_int : A -> Z.

Definition _split_array (data : list A) (divisor : Z) : outcome (list (list Z)) :=
  let len := Z.of_nat (length data) in
  if (divisor =? 0)%Z then Raises ZeroDivisionError
  else
    let num_splits :=
      (len / divisor + (if negb (len mod divisor =? 0) then 1 else 0))%Z in
    match array_split data num_splits with
    | Ok chunks => Returns (map (map astype_int) chunks)
    | Raise e => Raises (Builtin e)
    end.

End SplitArray.

(** *** [_rearrange_data], on a numpy array *)

(** A two-dimensional array: its number of columns and its rows. *)
Record ndarray : Type := {
  ncols : nat;
  rows : list (list R)
}.

(** [data[:, 0] == -999.0] at one row. *)
Definition is_missing (r : list R) : bool :=
  match r with
  | x :: _ => if Req_dec_T x (-999) then true else false
  | [] => false
  end.

Definition _rearrange_data (data : ndarray) : result ndarray :=
  if (ncols data =? 0)%nat then Raise IndexError
  else
    let split_missing := filter is_missing (rows data) in
    let split_not_missing := filter (fun r => negb (is_missing r)) (rows data) in
    Ok {| ncols := ncols data; rows := split_missing ++ split_not_missing |}.

(** *** [_generate_random_indices] *)

Inductive n_samples_arg : Type :=
| NoneArg
| IntArg (n : Z)
| FloatArg (x : R).

(** [int(x)]: truncation towards zero. *)
Definition py_int (x : R) : Z :=
  if Rle_dec 0 x then Zfloor x else Zceil x.

(** The call [np.random.choice(n_draws, size=size, replace=False)] that
    produces the indices. *)
Inductive choice : Type :=
| random_choice (n_draws size : Z).

(** The product [n_samples * n_draws] of the float branch is taken over the
    real numbers; the source truncates the float product, which can round
    up to the next integer. *)
Definition _generate_random_indices (n_samples : n_samples_arg) (n_draws : Z)
  : result (option choice) :=
  if (n_draws <=? 0)%Z then Raise (ValueError "n_draws must be >= 1.")
  else
    match n_samples with
    | NoneArg => Ok None
    | IntArg n =>
        if (n >? n_draws)%Z then Ok None
        else if (n <? 1)%Z
             then Raise (ValueError "When an int, n_samples must be >= 1.")
             else Ok (Some (random_choice n_draws n))
    | FloatArg x =>
        if pt_gt x (IZR n_draws) then Ok None
        else if pt_le x 0 || pt_gt x 1
             then Raise (ValueError "When a float, n_samples must be between 0 and 1.")
             else
               let n := Z.max (py_int (x * IZR n_draws)) 1 in
               if (n <? 1)%Z
               then Raise (ValueError "When an int, n_samples must be >= 1.")
               else Ok (Some (random_choice n_draws n))
    end.

End Utils.

(** The time column with its sign changed, the response kept. *)
Definition negate_time (x : row) : row := (- fst x, snd x).


(** ** The fast expansion written as a plain sum *)

(** The Gaussian-kernel term at index [k]:
    [(w + 2k) * exp(-(w + 2k)^2 / (2 tt))]. *)
Definition fast_term (tt w : R) (k : Z) : R :=
  (w + 2 * IZR k) * exp (- (w + 2 * IZR k) ^ 2 / (2 * tt)).

(** The sum of the terms over a list of indices, with the outer
    normalisation [1 / sqrt(2 pi tt^3)]; no maximum is subtracted. *)
Definition fast_sum (tt w : R) (index : list Z) : R :=
  pt_sum (map (fast_term tt w) index) / sqrt (2 * PI * tt ^ 3).

(** The index range as the specification words it: from
    [ceil((k_terms - 1) / 2)] to [floor((k_terms - 1) / 2)], both included. *)
Definition claimed_index (k_terms : Z) : list Z :=
  arange (ceil_half (k_terms - 1)) (floor_half (k_terms - 1) + 1).

(** ** Flipping the choice of a trial *)

(** The other choice at the same response time: the response column changes
    sign. *)
Definition flip_choice (x : row) : row := (fst x, - snd x).

(** The same, on data whose time column carries the sign of the response as
    well: both columns change sign. *)
Definition flip_signed (x : row) : row := (- fst x, - snd x).

(** * Properties *)

(** ** The result monad and the primitives *)

Lemma mapM_Forall2 {A B : Type} (f : A -> result B) (l : list A) (ys : list B) :
  mapM f l = Ok ys <-> Forall2 (fun x y => f x = Ok y) l ys.
Proof.
  revert ys; induction l as [|x xs IH]; intros ys; simpl.
  - split; intros H.
    + injection H as <-. constructor.
    + inversion H. reflexivity.
  - destruct (f x) as [y|e] eqn:Hx; simpl.
    + destruct (mapM f xs) as [zs|e] eqn:Hxs; simpl.
      * split; intros H.
        -- injection H as <-. constructor; [exact Hx|]. now apply IH.
        -- inversion H as [|? y' ? zs' Hy Hzs]; subst.
           rewrite Hx in Hy; injection Hy as <-.
           apply IH in Hzs. injection Hzs as <-. reflexivity.
      * split; intros H; [discriminate|].
        inversion H as [|? y' ? zs' Hy Hzs]; subst.
        apply IH in Hzs. discriminate.
    + split; intros H; [discriminate|].
      inversion H as [|? y' ? zs' Hy Hzs]; subst. rewrite Hx in Hy. discriminate.
Qed.

Lemma mapM_total {A B : Type} (f : A -> result B) (l : list A) :
  (forall x, In x l -> exists y, f x = Ok y) ->
  exists ys, mapM f l = Ok ys.
Proof.
  induction l as [|x xs IH]; intros H; simpl.
  - now exists [].
  - destruct (H x (or_introl eq_refl)) as [y ->].
    destruct IH as [ys ->]; [intros; apply H; now right|].
    simpl. now exists (y :: ys).
Qed.

Lemma mapM_length {A B : Type} (f : A -> result B) (l : list A) (ys : list B) :
  mapM f l = Ok ys -> length ys = length l.
Proof.
  intros H. apply mapM_Forall2 in H. symmetry. eapply Forall2_length; eauto.
Qed.

Lemma mapM_nth_error {A B : Type} (f : A -> result B) (l : list A) (ys : list B) :
  mapM f l = Ok ys ->
  forall i x, nth_error l i = Some x ->
  exists y, nth_error ys i = Some y /\ f x = Ok y.
Proof.
  intros H. apply mapM_Forall2 in H.
  induction H as [|x0 y0 l ys Hxy _ IH]; intros i x Hi.
  - destruct i; discriminate.
  - destruct i as [|i]; simpl in *.
    + injection Hi as <-. now exists y0.
    + now apply IH.
Qed.

Lemma mapM_ext {A B : Type} (f g : A -> result B) (l : list A) :
  (forall x, In x l -> f x = g x) -> mapM f l = mapM g l.
Proof.
  induction l as [|x xs IH]; intros H; simpl; [reflexivity|].
  rewrite (H x (or_introl eq_refl)), IH; [reflexivity|].
  intros; apply H; now right.
Qed.

Lemma mapM_map {A B C : Type} (f : B -> result C) (g : A -> B) (l : list A) :
  mapM f (map g l) = mapM (fun x => f (g x)) l.
Proof.
  induction l as [|x xs IH]; simpl; [reflexivity|]. now rewrite IH.
Qed.

Lemma pt_lt_true x y : x < y -> pt_lt x y = true.
Proof. intros H; unfold pt_lt; destruct (Rlt_dec x y); [reflexivity|contradiction]. Qed.

Lemma pt_lt_false x y : y <= x -> pt_lt x y = false.
Proof. intros H; unfold pt_lt; destruct (Rlt_dec x y); [lra|reflexivity]. Qed.

Lemma pt_gt_true x y : x > y -> pt_gt x y = true.
Proof. intros H; unfold pt_gt; destruct (Rgt_dec x y); [reflexivity|contradiction]. Qed.

Lemma pt_gt_false x y : x <= y -> pt_gt x y = false.
Proof. intros H; unfold pt_gt; destruct (Rgt_dec x y); [lra|reflexivity]. Qed.

Lemma pt_le_true x y : x <= y -> pt_le x y = true.
Proof. intros H; unfold pt_le; destruct (Rle_dec x y); [reflexivity|contradiction]. Qed.

Lemma pt_le_false x y : y < x -> pt_le x y = false.
Proof. intros H; unfold pt_le; destruct (Rle_dec x y); [lra|reflexivity]. Qed.

Lemma pt_ge_true x y : x >= y -> pt_ge x y = true.
Proof. intros H; unfold pt_ge; destruct (Rge_dec x y); [reflexivity|contradiction]. Qed.

Lemma pt_ge_false x y : x < y -> pt_ge x y = false.
Proof. intros H; unfold pt_ge; destruct (Rge_dec x y); [lra|reflexivity]. Qed.

Lemma floor_ceil_half n : (floor_half n + ceil_half n = n)%Z.
Proof.
  unfold floor_half, ceil_half.
  pose proof (Z.div_mod n 2) as H1. pose proof (Z.div_mod (- n) 2) as H2.
  pose proof (Z.mod_pos_bound n 2) as H3. pose proof (Z.mod_pos_bound (- n) 2) as H4.
  lia.
Qed.

Lemma arange_length lo hi : length (arange lo hi) = Z.to_nat (hi - lo).
Proof. unfold arange. now rewrite length_map, length_seq. Qed.

Lemma arange_In lo hi k : In k (arange lo hi) <-> (lo <= k < hi)%Z.
Proof.
  unfold arange. rewrite in_map_iff. split.
  - intros [i [<- Hi]]. apply in_seq in Hi. lia.
  - intros H. exists (Z.to_nat (k - lo)). split; [lia|]. apply in_seq. lia.
Qed.

Lemma arange_NoDup lo hi : NoDup (arange lo hi).
Proof.
  unfold arange. apply Injective_map_NoDup; [|apply seq_NoDup].
  intros i j H. lia.
Qed.

(** ** The series kernels *)

Lemma fast_index_length k_terms :
  (1 <= k_terms)%Z -> length (Analytical.fast_index k_terms) = Z.to_nat k_terms.
Proof.
  intros H. unfold Analytical.fast_index. rewrite arange_length.
  pose proof (floor_ceil_half (k_terms - 1)) as E.
  replace (ceil_half (k_terms - 1) + 1 - - floor_half (k_terms - 1))%Z
    with k_terms by lia.
  reflexivity.
Qed.

Lemma fast_index_In k_terms k :
  In k (Analytical.fast_index k_terms)
  <-> (- floor_half (k_terms - 1) <= k <= ceil_half (k_terms - 1))%Z.
Proof. unfold Analytical.fast_index. rewrite arange_In. lia. Qed.

Lemma fast_index_nonempty k_terms :
  (1 <= k_terms)%Z -> Analytical.fast_index k_terms <> [].
Proof.
  intros H E. pose proof (fast_index_length k_terms H) as HL.
  rewrite E in HL. simpl in HL. lia.
Qed.

(** Subtracting [c] inside the exponentials and multiplying by [exp c]
    outside leaves the sum as it is. *)
Lemma log_sum_exp_exact (c : R) (l : list (R * R)) :
  exp c * pt_sum (map (fun yr => fst yr * exp (snd yr - c)) l)
  = pt_sum (map (fun yr => fst yr * exp (snd yr)) l).
Proof.
  induction l as [|[y r] l IH]; simpl.
  - ring.
  - rewrite Rmult_plus_distr_l, IH. f_equal.
    replace r with (c + (r - c)) at 2 by ring.
    rewrite exp_plus. ring.
Qed.

Lemma combine_map_map {A B C : Type} (f : A -> B) (g : B -> C) (l : list A) :
  combine (map f l) (map g (map f l)) = map (fun x => (f x, g (f x))) l.
Proof. induction l as [|x l IH]; simpl; [reflexivity|]. now rewrite IH. Qed.

Lemma combine_map_same {A B C : Type} (f : A -> B) (g : A -> C) (l : list A) :
  combine (map f l) (map g l) = map (fun x => (f x, g x)) l.
Proof. induction l as [|x l IH]; simpl; [reflexivity|]. now rewrite IH. Qed.

Lemma ftt01w_fast_value tt w k_terms :
  (1 <= k_terms)%Z ->
  Analytical.ftt01w_fast tt w k_terms
  = Ok (fast_sum tt w (Analytical.fast_index k_terms)).
Proof.
  intros H. unfold Analytical.ftt01w_fast, fast_sum.
  pose proof (fast_index_nonempty k_terms H) as Hne.
  destruct (Analytical.fast_index k_terms) as [|k0 ks] eqn:E; [congruence|].
  rewrite <- E. clear Hne.
  set (ys := map (fun k => w + 2 * k) (map IZR (Analytical.fast_index k_terms))).
  assert (Hmax : exists c, pt_max (map (fun y => - y ^ 2 / (2 * tt)) ys) = Ok c).
  { unfold ys. rewrite E. simpl. eexists; reflexivity. }
  destruct Hmax as [c ->]. simpl.
  rewrite log_sum_exp_exact. unfold ys.
  rewrite combine_map_map, !map_map. reflexivity.
Qed.

Lemma ftt01w_fast_Ok tt w k_terms :
  (1 <= k_terms)%Z -> exists p, Analytical.ftt01w_fast tt w k_terms = Ok p.
Proof. intros H. rewrite ftt01w_fast_value by exact H. eexists; reflexivity. Qed.

Lemma ftt01w_Ok rt a w err k_terms :
  (1 <= k_terms)%Z -> exists p, Analytical.ftt01w rt a w err k_terms = Ok p.
Proof.
  intros H. unfold Analytical.ftt01w.
  rewrite ftt01w_fast_value by exact H. simpl. eexists; reflexivity.
Qed.

(** ** The assembler, row by row *)

Section Rows.

Import Analytical.

Variables (v a z t sv err : R) (k_terms : Z) (epsilon : R).
Hypothesis k_terms_pos : (1 <= k_terms)%Z.

Lemma logp_ddm_row_Ok x : exists y, logp_ddm_row v a z t err k_terms epsilon x = Ok y.
Proof.
  unfold logp_ddm_row.
  match goal with |- context [ftt01w ?tt ?a ?w ?e ?k] =>
    destruct (ftt01w_Ok tt a w e k k_terms_pos) as [d ->] end.
  simpl. eexists; reflexivity.
Qed.

Lemma logp_ddm_sdv_row_Ok x :
  exists y, logp_ddm_sdv_row v a z t sv err k_terms epsilon x = Ok y.
Proof.
  unfold logp_ddm_sdv_row.
  match goal with |- context [ftt01w ?tt ?a ?w ?e ?k] =>
    destruct (ftt01w_Ok tt a w e k k_terms_pos) as [d ->] end.
  simpl. eexists; reflexivity.
Qed.

Lemma logp_ddm_row_degenerate x :
  Rabs (fst x) - t <= epsilon ->
  logp_ddm_row v a z t err k_terms epsilon x = Ok LOGP_LB.
Proof.
  intros H. unfold logp_ddm_row. rewrite (pt_le_true _ _ H).
  match goal with |- context [ftt01w ?tt ?a ?w ?e ?k] =>
    destruct (ftt01w_Ok tt a w e k k_terms_pos) as [d ->] end.
  simpl. f_equal. ring.
Qed.

Lemma logp_ddm_sdv_row_degenerate x :
  Rabs (fst x) - t <= epsilon ->
  logp_ddm_sdv_row v a z t sv err k_terms epsilon x = Ok LOGP_LB.
Proof.
  intros H. unfold logp_ddm_sdv_row. rewrite (pt_le_true _ _ H).
  match goal with |- context [ftt01w ?tt ?a ?w ?e ?k] =>
    destruct (ftt01w_Ok tt a w e k k_terms_pos) as [d ->] end.
  simpl. f_equal. ring.
Qed.

Lemma logp_rows_Ok data :
  exists logp, mapM (logp_ddm_row v a z t err k_terms epsilon) data = Ok logp.
Proof. apply mapM_total. intros x _. apply logp_ddm_row_Ok. Qed.

Lemma logp_sdv_rows_Ok data :
  exists logp, mapM (logp_ddm_sdv_row v a z t sv err k_terms epsilon) data = Ok logp.
Proof. apply mapM_total. intros x _. apply logp_ddm_sdv_row_Ok. Qed.

End Rows.

(** ** The parameter checks *)

Section Checks.

Import Analytical.

Variables (data : list row) (v a z t : R) (sv : scalar_arg) (err : R).
Variables (k_terms : Z) (epsilon : R).

(** [logp_ddm] is its tensor [logp] behind the three checks, in their order. *)
Lemma logp_ddm_checks logp :
  mapM (logp_ddm_row v (a * 2) z t err k_terms epsilon) data = Ok logp ->
  logp_ddm data v a z t err k_terms epsilon
  = if pt_ge (a * 2) 0
    then if pt_ge z 0
         then if pt_le z 1 then Ok logp
              else Raise (ParameterValueError "z <= 1")
         else Raise (ParameterValueError "z >= 0")
    else Raise (ParameterValueError "a >= 0").
Proof.
  intros H. unfold logp_ddm. rewrite H. simpl. unfold check_parameters.
  destruct (pt_ge (a * 2) 0); simpl; [|reflexivity].
  destruct (pt_ge z 0); simpl; [|reflexivity].
  destruct (pt_le z 1); reflexivity.
Qed.

(** The test [sv == 0] fails on every tensor variable and on every number
    other than [0]. *)
Lemma py_eq_zero_tensor x : py_eq_zero (TensorVariable x) = false.
Proof. reflexivity. Qed.

Lemma py_eq_zero_nonzero : value sv <> 0 -> py_eq_zero sv = false.
Proof.
  intros H. destruct sv as [x|x]; simpl in *; [|reflexivity].
  destruct (Req_dec_T x 0); [contradiction|reflexivity].
Qed.

Lemma py_eq_zero_true : py_eq_zero sv = true <-> sv = PyNumber 0.
Proof.
  destruct sv as [x|x]; simpl.
  - destruct (Req_dec_T x 0) as [->|H]; split; intros E;
      try reflexivity; try discriminate.
    injection E as E. contradiction.
  - split; intros E; discriminate.
Qed.

(** Past the test [sv == 0], [logp_ddm_sdv] is its tensor [logp] behind the
    four checks, in their order. *)
Lemma logp_ddm_sdv_checks logp :
  py_eq_zero sv = false ->
  mapM (logp_ddm_sdv_row v (a * 2) z t (value sv) err k_terms epsilon) data
  = Ok logp ->
  logp_ddm_sdv data v a z t sv err k_terms epsilon
  = if pt_ge (a * 2) 0
    then if pt_ge z 0
         then if pt_le z 1
              then if pt_gt (value sv) 0 then Ok logp
                   else Raise (ParameterValueError "sv > 0")
              else Raise (ParameterValueError "z <= 1")
         else Raise (ParameterValueError "z >= 0")
    else Raise (ParameterValueError "a >= 0").
Proof.
  intros Hsv H. unfold logp_ddm_sdv. rewrite Hsv. cbv zeta.
  rewrite H. simpl. unfold check_parameters.
  destruct (pt_ge (a * 2) 0); simpl; [|reflexivity].
  destruct (pt_ge z 0); simpl; [|reflexivity].
  destruct (pt_le z 1); simpl; [|reflexivity].
  destruct (pt_gt (value sv) 0); reflexivity.
Qed.

Lemma logp_ddm_valid logp :
  0 <= a -> 0 <= z <= 1 ->
  mapM (logp_ddm_row v (a * 2) z t err k_terms epsilon) data = Ok logp ->
  logp_ddm data v a z t err k_terms epsilon = Ok logp.
Proof.
  intros Ha [Hz0 Hz1] H. rewrite (logp_ddm_checks logp H).
  rewrite pt_ge_true by lra. rewrite pt_ge_true by lra.
  rewrite pt_le_true by lra. reflexivity.
Qed.

Lemma logp_ddm_sdv_valid logp :
  0 <= a -> 0 <= z <= 1 -> 0 < value sv ->
  mapM (logp_ddm_sdv_row v (a * 2) z t (value sv) err k_terms epsilon) data
  = Ok logp ->
  logp_ddm_sdv data v a z t sv err k_terms epsilon = Ok logp.
Proof.
  intros Ha [Hz0 Hz1] Hsv H.
  rewrite (logp_ddm_sdv_checks logp);
    [|apply py_eq_zero_nonzero; lra|exact H].
  rewrite pt_ge_true by lra. rewrite pt_ge_true by lra.
  rewrite pt_le_true by lra. rewrite pt_gt_true by lra. reflexivity.
Qed.

(** With a value that is not positive the last check fails, if no earlier
    one did. *)
Lemma logp_ddm_sdv_rejects_sv logp :
  py_eq_zero sv = false -> value sv <= 0 ->
  mapM (logp_ddm_sdv_row v (a * 2) z t (value sv) err k_terms epsilon) data
  = Ok logp ->
  exists msg,
    logp_ddm_sdv data v a z t sv err k_terms epsilon
    = Raise (ParameterValueError msg)
    /\ (0 <= a -> 0 <= z <= 1 -> msg = "sv > 0"%string).
Proof.
  intros Hsv Hle H. rewrite (logp_ddm_sdv_checks logp Hsv H).
  destruct (Rlt_dec a 0) as [Ha|Ha].
  { rewrite pt_ge_false by lra. eexists; split; [reflexivity|]. intros; lra. }
  rewrite pt_ge_true by lra.
  destruct (Rlt_dec z 0) as [Hz|Hz].
  { rewrite pt_ge_false by lra. eexists; split; [reflexivity|]. intros; lra. }
  rewrite pt_ge_true by lra.
  destruct (Rlt_dec 1 z) as [Hz1|Hz1].
  { rewrite pt_le_false by lra. eexists; split; [reflexivity|]. intros; lra. }
  rewrite pt_le_true by lra.
  rewrite pt_gt_false by lra. eexists; split; reflexivity.
Qed.

End Checks.

(** ** The assembler entry points *)

Section Assembler.

Import Analytical.

Lemma logp_ddm_sdv_at_zero
  (data : list row) (v a z t err : R) (k_terms : Z) (epsilon : R) :
  logp_ddm_sdv data v a z t (PyNumber 0) err k_terms epsilon
  = logp_ddm data v a z t err k_terms epsilon.
Proof.
  unfold logp_ddm_sdv, py_eq_zero.
  destruct (Req_dec_T 0 0) as [_|H]; [reflexivity|].
  now contradiction H.
Qed.

(** C2, as amended.  Called with the Python number [0] for [sv],
    [logp_ddm_sdv] returns what [logp_ddm] returns on the same data,
    parameters, [err], [k_terms] and [epsilon], a vector or an error alike:
    the first statement of the function hands the call over.  A tensor
    variable whose value is [0] does not pass the test [sv == 0]: the [sv]
    branch runs and, with at least one series term, a check fails, which is
    the check [sv > 0] when [a >= 0] and [0 <= z <= 1]. *)
Theorem logp_ddm_sdv_zero_delegates
  (data : list row) (v a z t err : R) (k_terms : Z) (epsilon : R) :
  logp_ddm_sdv data v a z t (PyNumber 0) err k_terms epsilon
  = logp_ddm data v a z t err k_terms epsilon
  /\ ((1 <= k_terms)%Z ->
      exists msg,
        logp_ddm_sdv data v a z t (TensorVariable 0) err k_terms epsilon
        = Raise (ParameterValueError msg)
        /\ (0 <= a -> 0 <= z <= 1 -> msg = "sv > 0"%string)).
Proof.
  split; [apply logp_ddm_sdv_at_zero|].
  intros Hk.
  destruct (logp_sdv_rows_Ok v (a * 2) z t 0 err k_terms epsilon Hk data)
    as [l_sv Hl_sv].
  apply (logp_ddm_sdv_rejects_sv data v a z t (TensorVariable 0) err
           k_terms epsilon l_sv); [reflexivity|simpl; lra|exact Hl_sv].
Qed.

(** C1, as amended.  With [a > 0], [0 < z < 1], at least one series term
    and an [sv] that is positive or the Python number [0], both entry
    points return a vector, and every row whose decision time [|rt| - t] is
    at most [epsilon] holds exactly [LOGP_LB] in both, whatever [v], [a],
    [z] and [sv] are. *)
Theorem degenerate_rows_floor
  (data : list row) (v a z t : R) (sv : scalar_arg) (err : R) (k_terms : Z)
  (epsilon : R) :
  0 < a -> 0 < z < 1 -> 0 < value sv \/ sv = PyNumber 0 -> (1 <= k_terms)%Z ->
  exists l l_sv,
    logp_ddm data v a z t err k_terms epsilon = Ok l /\
    logp_ddm_sdv data v a z t sv err k_terms epsilon = Ok l_sv /\
    forall i x,
      nth_error data i = Some x ->
      Rabs (fst x) - t <= epsilon ->
      nth_error l i = Some LOGP_LB /\ nth_error l_sv i = Some LOGP_LB.
Proof.
  intros Ha Hz Hsv Hk.
  destruct (logp_rows_Ok v (a * 2) z t err k_terms epsilon Hk data) as [l Hl].
  assert (Hddm : logp_ddm data v a z t err k_terms epsilon = Ok l).
  { apply logp_ddm_valid; [lra|lra|exact Hl]. }
  assert (Hrow : forall i x, nth_error data i = Some x ->
                   Rabs (fst x) - t <= epsilon -> nth_error l i = Some LOGP_LB).
  { intros i x Hi Hx.
    destruct (mapM_nth_error _ _ _ Hl i x Hi) as [y [Hy Hf]].
    rewrite (logp_ddm_row_degenerate _ _ _ _ _ _ _ Hk x Hx) in Hf.
    injection Hf as <-. exact Hy. }
  destruct Hsv as [Hpos|E].
  - destruct (logp_sdv_rows_Ok v (a * 2) z t (value sv) err k_terms epsilon
                Hk data) as [l_sv Hl_sv].
    exists l, l_sv. split; [exact Hddm|]. split.
    + apply logp_ddm_sdv_valid; [lra|lra|lra|exact Hl_sv].
    + intros i x Hi Hx. split; [now apply (Hrow i x)|].
      destruct (mapM_nth_error _ _ _ Hl_sv i x Hi) as [y [Hy Hf]].
      rewrite (logp_ddm_sdv_row_degenerate _ _ _ _ _ _ _ _ Hk x Hx) in Hf.
      injection Hf as <-. exact Hy.
  - subst sv. exists l, l. rewrite logp_ddm_sdv_at_zero.
    split; [exact Hddm|]. split; [exact Hddm|].
    intros i x Hi Hx. split; now apply (Hrow i x).
Qed.

(** C10.  With [a > 0], [0 < z < 1] and at least one series term, the
    tensor [logp] of either entry point is computed, [logp_ddm] returns it
    and [logp_ddm_sdv] returns it behind its check of [sv], for [sv] a
    tensor variable or a number other than [0].
    At every row with [|rt| - t > epsilon] the logarithm is taken of
    [p = max(d, exp(LOGP_LB))], where [d] is what the series evaluator gave
    (of any sign): [p] is strictly positive, the log-density term [ln p] is
    at least [LOGP_LB], and the row holds [ln p] corrected by the closed-form
    terms, the boundary under the other logarithm being positive too. *)
Theorem density_floor_bounds_log
  (data : list row) (v a z t sv err : R) (k_terms : Z) (epsilon : R) :
  0 < a -> 0 < z < 1 -> (1 <= k_terms)%Z ->
  exists logp logp_sv,
    mapM (logp_ddm_row v (a * 2) z t err k_terms epsilon) data = Ok logp /\
    mapM (logp_ddm_sdv_row v (a * 2) z t sv err k_terms epsilon) data = Ok logp_sv /\
    logp_ddm data v a z t err k_terms epsilon = Ok logp /\
    (forall s : scalar_arg,
       value s = sv -> py_eq_zero s = false ->
       logp_ddm_sdv data v a z t s err k_terms epsilon
       = check_parameters logp_sv (pt_gt sv 0) "sv > 0") /\
    forall i x,
      nth_error data i = Some x ->
      Rabs (fst x) - t > epsilon ->
      let flip := floatX (pt_gt (snd x) 0) in
      let v_flipped := flip * (- v) + (1 - flip) * v in
      let z_flipped := flip * (1 - z) + (1 - flip) * z in
      let tt := Rabs (fst x) - t in
      exists d,
        ftt01w tt (a * 2) z_flipped err k_terms = Ok d /\
        let p := Rmax d (exp LOGP_LB) in
        0 < p /\ LOGP_LB <= ln p /\ 0 < a * 2 /\
        nth_error logp i
        = Some (ln p - v_flipped * (a * 2) * z_flipped
                - v_flipped ^ 2 * tt / 2 - 2 * ln (a * 2)) /\
        nth_error logp_sv i
        = Some (ln p
                + (((a * 2) * z_flipped * sv) ^ 2
                   - 2 * (a * 2) * v_flipped * z_flipped
                   - v_flipped ^ 2 * tt)
                  / (2 * sv ^ 2 * tt + 2)
                - 0.5 * ln (sv ^ 2 * tt + 1) - 2 * ln (a * 2)).
Proof.
  intros Ha Hz Hk.
  destruct (logp_rows_Ok v (a * 2) z t err k_terms epsilon Hk data) as [l Hl].
  destruct (logp_sdv_rows_Ok v (a * 2) z t sv err k_terms epsilon Hk data)
    as [l_sv Hl_sv].
  exists l, l_sv. split; [exact Hl|]. split; [exact Hl_sv|]. split.
  { apply logp_ddm_valid; [lra|lra|exact Hl]. }
  split.
  { intros s Hs Hne. subst sv.
    rewrite (logp_ddm_sdv_checks _ _ _ _ _ _ _ _ _ l_sv Hne Hl_sv).
    rewrite pt_ge_true by lra. rewrite pt_ge_true by lra.
    rewrite pt_le_true by lra. reflexivity. }
  intros i x Hi Hx flip v_flipped z_flipped tt.
  destruct (ftt01w_Ok tt (a * 2) z_flipped err k_terms Hk) as [d Hd].
  exists d. split; [exact Hd|].
  assert (Hp : exp LOGP_LB <= Rmax d (exp LOGP_LB)) by apply Rmax_r.
  pose proof (exp_pos LOGP_LB) as He.
  cbv zeta. split; [lra|]. split.
  { rewrite <- (ln_exp LOGP_LB) at 1.
    destruct Hp as [Hlt|Heq]; [left; apply ln_increasing; assumption|].
    right. now rewrite <- Heq. }
  split; [lra|].
  destruct (mapM_nth_error _ _ _ Hl i x Hi) as [y [Hy Hf]].
  destruct (mapM_nth_error _ _ _ Hl_sv i x Hi) as [y' [Hy' Hf']].
  unfold logp_ddm_row in Hf. unfold logp_ddm_sdv_row in Hf'.
  rewrite pt_le_false in Hf, Hf' by lra. simpl floatX in Hf, Hf'.
  replace (0 * epsilon + (1 - 0) * (Rabs (fst x) - t)) with tt in Hf, Hf'
    by (unfold tt; ring).
  fold flip in Hf, Hf'. fold v_flipped in Hf, Hf'. fold z_flipped in Hf, Hf'.
  rewrite Hd in Hf, Hf'. simpl in Hf, Hf'.
  injection Hf as <-. injection Hf' as <-.
  split; [rewrite Hy|rewrite Hy']; f_equal; simpl; ring.
Qed.

End Assembler.

Section Validity.

Import Analytical.

(** C8, as amended.  With at least one series term the tensor [logp] of
    either entry point is computed, and the checks decide what is returned.
    A parameter with [a < 0], [z < 0] or [z > 1] makes the whole result of
    either entry point a [ParameterValueError], not a number, and so does,
    for the [sv] variant, an [sv] with a value [<= 0], unless it is the
    Python number [0].  With [a >= 0] and [0 <= z <= 1] no check of
    [logp_ddm] fires and [logp] is returned; the [sv] variant returns its
    [logp] for [sv > 0], and for the Python number [0] the tensor of
    [logp_ddm], no check of [sv] being made. *)
Theorem parameter_violations_signalled
  (data : list row) (v a z t : R) (sv : scalar_arg) (err : R) (k_terms : Z)
  (epsilon : R) :
  (1 <= k_terms)%Z ->
  exists logp logp_sv,
    mapM (logp_ddm_row v (a * 2) z t err k_terms epsilon) data = Ok logp /\
    mapM (logp_ddm_sdv_row v (a * 2) z t (value sv) err k_terms epsilon) data
    = Ok logp_sv /\
    (a < 0 \/ z < 0 \/ 1 < z ->
     exists msg, logp_ddm data v a z t err k_terms epsilon
                 = Raise (ParameterValueError msg)) /\
    (a < 0 \/ z < 0 \/ 1 < z \/ (value sv <= 0 /\ sv <> PyNumber 0) ->
     exists msg, logp_ddm_sdv data v a z t sv err k_terms epsilon
                 = Raise (ParameterValueError msg)) /\
    (0 <= a -> 0 <= z <= 1 ->
     logp_ddm data v a z t err k_terms epsilon = Ok logp) /\
    (0 <= a -> 0 <= z <= 1 -> 0 < value sv ->
     logp_ddm_sdv data v a z t sv err k_terms epsilon = Ok logp_sv) /\
    (0 <= a -> 0 <= z <= 1 -> sv = PyNumber 0 ->
     logp_ddm_sdv data v a z t sv err k_terms epsilon = Ok logp).
Proof.
  intros Hk.
  destruct (logp_rows_Ok v (a * 2) z t err k_terms epsilon Hk data) as [l Hl].
  destruct (logp_sdv_rows_Ok v (a * 2) z t (value sv) err k_terms epsilon Hk data)
    as [l_sv Hl_sv].
  assert (Hbad : a < 0 \/ z < 0 \/ 1 < z ->
                 exists msg, logp_ddm data v a z t err k_terms epsilon
                             = Raise (ParameterValueError msg)).
  { intros Hv. rewrite (logp_ddm_checks _ _ _ _ _ _ _ _ l Hl).
    destruct (Rlt_dec a 0) as [Ha|Ha].
    { rewrite pt_ge_false by lra. eexists; reflexivity. }
    rewrite pt_ge_true by lra.
    destruct (Rlt_dec z 0) as [Hz|Hz].
    { rewrite pt_ge_false by lra. eexists; reflexivity. }
    rewrite pt_ge_true by lra.
    rewrite pt_le_false by lra. eexists; reflexivity. }
  exists l, l_sv. split; [exact Hl|]. split; [exact Hl_sv|].
  split; [exact Hbad|]. split.
  { intros Hv. destruct (py_eq_zero sv) eqn:E.
    - apply py_eq_zero_true in E. subst sv. rewrite logp_ddm_sdv_at_zero.
      apply Hbad. destruct Hv as [H|[H|[H|[_ H]]]]; [lra|lra|lra|].
      now contradiction H.
    - rewrite (logp_ddm_sdv_checks _ _ _ _ _ _ _ _ _ l_sv E Hl_sv).
      destruct (Rlt_dec a 0) as [Ha|Ha].
      { rewrite pt_ge_false by lra. eexists; reflexivity. }
      rewrite pt_ge_true by lra.
      destruct (Rlt_dec z 0) as [Hz|Hz].
      { rewrite pt_ge_false by lra. eexists; reflexivity. }
      rewrite pt_ge_true by lra.
      destruct (Rlt_dec 1 z) as [Hz1|Hz1].
      { rewrite pt_le_false by lra. eexists; reflexivity. }
      rewrite pt_le_true by lra.
      rewrite pt_gt_false by lra. eexists; reflexivity. }
  split.
  { intros Ha Hz. now apply logp_ddm_valid. }
  split.
  { intros Ha Hz Hsv. now apply logp_ddm_sdv_valid. }
  intros Ha Hz ->. rewrite logp_ddm_sdv_at_zero. now apply logp_ddm_valid.
Qed.

End Validity.

(** ** Flipping every choice *)

Section ChoiceFlip.

Import Analytical.

Variables (v a z t err : R) (k_terms : Z) (epsilon : R).

Lemma logp_ddm_row_flip (a2 : R) (x x' : row) :
  snd x <> 0 ->
  Rabs (fst x') = Rabs (fst x) ->
  snd x' = - snd x ->
  logp_ddm_row (- v) a2 (1 - z) t err k_terms epsilon x'
  = logp_ddm_row v a2 z t err k_terms epsilon x.
Proof.
  intros Hnz Habs Hneg. unfold logp_ddm_row. rewrite Habs, Hneg.
  destruct (Rgt_dec (snd x) 0) as [Hpos|Hneg0].
  - rewrite (pt_gt_true (snd x)) by exact Hpos.
    rewrite (pt_gt_false (- snd x)) by lra. simpl floatX.
    replace (0 * - - v + (1 - 0) * - v) with (1 * - v + (1 - 1) * v) by ring.
    replace (0 * (1 - (1 - z)) + (1 - 0) * (1 - z))
      with (1 * (1 - z) + (1 - 1) * z) by ring.
    reflexivity.
  - rewrite (pt_gt_false (snd x)) by lra.
    rewrite (pt_gt_true (- snd x)) by lra. simpl floatX.
    replace (1 * - - v + (1 - 1) * - v) with (0 * - v + (1 - 0) * v) by ring.
    replace (1 * (1 - (1 - z)) + (1 - 1) * (1 - z))
      with (0 * (1 - z) + (1 - 0) * z) by ring.
    reflexivity.
Qed.

Lemma logp_ddm_flip_rows (f : row -> row) (data : list row) :
  (forall x, Rabs (fst (f x)) = Rabs (fst x) /\ snd (f x) = - snd x) ->
  Forall (fun x : row => snd x <> 0) data ->
  0 <= z <= 1 ->
  logp_ddm (map f data) (- v) a (1 - z) t err k_terms epsilon
  = logp_ddm data v a z t err k_terms epsilon.
Proof.
  intros Hf Hdata [Hz0 Hz1]. unfold logp_ddm.
  rewrite mapM_map.
  rewrite (mapM_ext _ (logp_ddm_row v (a * 2) z t err k_terms epsilon)).
  - destruct (mapM _ data) as [logp|e]; simpl; [|reflexivity].
    unfold check_parameters.
    destruct (pt_ge (a * 2) 0); simpl; [|reflexivity].
    rewrite (pt_ge_true (1 - z)), (pt_ge_true z) by lra. simpl.
    rewrite (pt_le_true (1 - z)), (pt_le_true z) by lra. reflexivity.
  - intros x Hx. rewrite Forall_forall in Hdata.
    destruct (Hf x) as [H1 H2]. apply logp_ddm_row_flip; auto.
Qed.

(** C4.  On data whose response column is never zero (its sign is the
    choice), flipping the choice of every row together with [v -> -v] and
    [z -> 1 - z] leaves what [logp_ddm] returns unchanged, for [z] in
    [[0, 1]]; the sign of the time column plays no part, so this holds
    whether the flip negates the response alone or both columns. *)
Theorem choice_flip_invariance (data : list row) :
  Forall (fun x : row => snd x <> 0) data ->
  0 <= z <= 1 ->
  logp_ddm (map flip_choice data) (- v) a (1 - z) t err k_terms epsilon
  = logp_ddm data v a z t err k_terms epsilon
  /\ logp_ddm (map flip_signed data) (- v) a (1 - z) t err k_terms epsilon
     = logp_ddm data v a z t err k_terms epsilon.
Proof.
  intros Hdata Hz. split.
  - apply logp_ddm_flip_rows; [|exact Hdata|exact Hz].
    intros x. split; reflexivity.
  - apply logp_ddm_flip_rows; [|exact Hdata|exact Hz].
    intros x. split; [apply Rabs_Ropp|reflexivity].
Qed.

End ChoiceFlip.

(** ** Bounds on the elementary functions *)

Lemma PI_gt_2 : 2 < PI.
Proof. pose proof PI2_1. lra. Qed.

Lemma exp_le_1 x : x <= 0 -> exp x <= 1.
Proof.
  intros [H|H].
  - left. rewrite <- exp_0. now apply exp_increasing.
  - subst. rewrite exp_0. lra.
Qed.

Lemma exp_1_gt_2 : 2 < exp 1.
Proof. pose proof (exp_ineq1 1). lra. Qed.

Lemma sqrt_le_bound x b : 0 <= b -> x <= b * b -> sqrt x <= b.
Proof.
  intros Hb H. rewrite <- (sqrt_square b Hb). now apply sqrt_le_1_alt.
Qed.

Lemma sqrt_ge_bound x b : 0 <= b -> b * b <= x -> b <= sqrt x.
Proof.
  intros Hb H. rewrite <- (sqrt_square b Hb) at 1. now apply sqrt_le_1_alt.
Qed.

Lemma ln_2_bounds : 0 < ln 2 < 1.
Proof.
  split.
  - rewrite <- ln_1. apply ln_increasing; lra.
  - apply Rlt_le_trans with (ln (exp 1)).
    + apply ln_increasing; [lra|apply exp_1_gt_2].
    + rewrite ln_exp. lra.
Qed.

Lemma ln_half x : 0 < x -> ln (x / 2) = ln x - ln 2.
Proof.
  intros H. unfold Rdiv. rewrite ln_mult by lra. rewrite ln_Rinv by lra. ring.
Qed.

Lemma ln_sqrt_half x : 0 < x -> ln (sqrt x) = ln x / 2.
Proof.
  intros H. pose proof (sqrt_lt_R0 x H) as Hs.
  pose proof (ln_mult (sqrt x) (sqrt x) Hs Hs) as Hm.
  rewrite sqrt_sqrt in Hm by lra. lra.
Qed.

(** ** A row on which the truncated slow series is negative *)

Lemma selector_slow_example : Analytical.compute_k 1 1 = false.
Proof.
  pose proof PI_gt_2 as Hpi.
  unfold Analytical.compute_k. cbv zeta.
  assert (Hs : 1 <= sqrt (PI * 1 * 1)).
  { rewrite <- sqrt_1 at 1. apply sqrt_le_1_alt. lra. }
  rewrite (pt_lt_false (2 * sqrt (PI * 1 * 1) * 1)) by lra.
  rewrite (pt_lt_false (PI * 1 * 1)) by lra.
  simpl floatX. apply pt_lt_false.
  rewrite sqrt_1.
  assert (1 / (PI * 1) <= 1).
  { apply (Rmult_le_reg_r (PI * 1)); [lra|]. field_simplify; lra. }
  lra.
Qed.

Lemma slow_negative_example : Analytical.ftt01w_slow (1 / 10 ^ 2) (3 / 4) 2 < 0.
Proof.
  pose proof PI_gt_2 as Hpi. pose proof PI_4 as Hpi4.
  unfold Analytical.ftt01w_slow.
  change (arange 1 (2 + 1)) with [1; 2]%Z.
  cbv [map combine pt_sum fold_right fst snd].
  replace (2 * PI * (3 / 4)) with (3 * (PI / 2)) by field.
  rewrite sin_3PI2.
  pose proof (SIN_bound (1 * PI * (3 / 4))) as [_ Hs].
  set (s := sin (1 * PI * (3 / 4))) in *.
  assert (Hpi2 : PI ^ 2 <= 16) by nra.
  assert (Hpi0 : 0 <= PI ^ 2) by nra.
  pose proof (exp_pos (- 1 ^ 2 * PI ^ 2 * (1 / 10 ^ 2) / 2)) as He1.
  pose proof (exp_le_1 (- 1 ^ 2 * PI ^ 2 * (1 / 10 ^ 2) / 2)) as He1'.
  pose proof (exp_ineq1_le (- 2 ^ 2 * PI ^ 2 * (1 / 10 ^ 2) / 2)) as He2.
  set (e1 := exp (- 1 ^ 2 * PI ^ 2 * (1 / 10 ^ 2) / 2)) in *.
  set (e2 := exp (- 2 ^ 2 * PI ^ 2 * (1 / 10 ^ 2) / 2)) in *.
  assert (He1'' : e1 <= 1) by (apply He1'; lra).
  assert (He2' : 0.68 <= e2) by lra.
  assert (Hse : s * e1 <= 1) by nra.
  assert (HS : 1 * s * e1 + (2 * -1 * e2 + 0) <= - 0.36) by lra.
  nra.
Qed.

Lemma ftt01w_negative_example :
  exists p, Analytical.ftt01w 1 10 (3 / 4) 1 2 = Ok p /\ p < 0.
Proof.
  exists (Analytical.ftt01w_slow (1 / 10 ^ 2) (3 / 4) 2). split.
  - unfold Analytical.ftt01w. rewrite ftt01w_fast_value by lia.
    rewrite selector_slow_example. simpl. f_equal. ring.
  - apply slow_negative_example.
Qed.

(** ** The aesara evaluator *)

Lemma aesara_fast_Ok tt w k_terms :
  (1 <= k_terms)%Z -> exists p, Aesara.ftt01w_fast tt w k_terms = Ok p.
Proof.
  intros H. unfold Aesara.ftt01w_fast.
  change (arange (- floor_half (k_terms - 1)) (ceil_half (k_terms - 1) + 1))
    with (Analytical.fast_index k_terms).
  pose proof (fast_index_nonempty k_terms H) as Hne.
  destruct (Analytical.fast_index k_terms) as [|k0 ks]; [congruence|].
  simpl. eexists; reflexivity.
Qed.

Lemma combine_map_fst {A B : Type} (f : A -> B) (l : list A) :
  combine (map f l) l = map (fun x => (f x, x)) l.
Proof. induction l as [|x l IH]; simpl; [reflexivity|]. now rewrite IH. Qed.

(** A closure fresh from [decision_func] has nothing cached and computes. *)
Lemma aesara_ftt01w_fresh rt a w err k_terms :
  fst (Aesara.ftt01w Aesara.decision_func rt a w err k_terms)
  = mapM (fun rt_i =>
            Aesara.ftt01w_entry a w k_terms (Aesara.lambda_rt rt_i err, rt_i)) rt.
Proof.
  unfold Aesara.ftt01w, Aesara.inner_func. simpl.
  now rewrite combine_map_fst, mapM_map.
Qed.

Lemma aesara_entry_value a w k_terms lam rt_i :
  (1 <= k_terms)%Z ->
  exists p_fast,
    Aesara.ftt01w_fast (rt_i / a ^ 2) w k_terms = Ok p_fast /\
    Aesara.ftt01w_entry a w k_terms (lam, rt_i)
    = Ok (let p := if lam then p_fast
                   else Aesara.ftt01w_slow (rt_i / a ^ 2) w k_terms in
          if pt_gt p 0 then p else 0).
Proof.
  intros H. destruct (aesara_fast_Ok (rt_i / a ^ 2) w k_terms H) as [pf Hpf].
  exists pf. split; [exact Hpf|].
  unfold Aesara.ftt01w_entry. simpl fst; simpl snd. rewrite Hpf. simpl.
  f_equal. destruct (pt_gt _ 0); simpl; ring.
Qed.

Lemma mapM_one {A B : Type} (f : A -> result B) (x : A) :
  mapM f [x] = (y <- f x ;; Ok [y]).
Proof. reflexivity. Qed.

Lemma aesara_selector_slow_example : Aesara.lambda_rt 1 1 = false.
Proof.
  pose proof PI_gt_2 as Hpi.
  unfold Aesara.lambda_rt. cbv zeta.
  assert (Hs : 1 <= sqrt (2 * PI * 1)).
  { rewrite <- sqrt_1 at 1. apply sqrt_le_1_alt. lra. }
  rewrite (pt_lt_false (2 * sqrt (2 * PI * 1) * 1)) by lra.
  rewrite (pt_lt_false (PI * 1 * 1)) by lra.
  apply pt_lt_false. rewrite sqrt_1.
  assert (1 / (PI * 1) <= 1).
  { apply (Rmult_le_reg_r (PI * 1)); [lra|]. field_simplify; lra. }
  lra.
Qed.

(** ** The normalisation of the fast expansion *)

Section Positivity.

Variable tt : R.
Hypothesis tt_pos : 0 < tt.

Lemma normalisation_pos : 0 < sqrt (2 * PI * tt ^ 3).
Proof.
  apply sqrt_lt_R0. pose proof PI_RGT_0.
  assert (0 < tt ^ 3) by (apply pow_lt; exact tt_pos).
  apply Rmult_lt_0_compat; lra.
Qed.

End Positivity.

(** ** The density evaluator *)

Section Evaluator.

Variables (rt : list R) (a w err : R) (k_terms : Z).
Hypothesis k_terms_pos : (1 <= k_terms)%Z.

Lemma ftt01w_value rt_i :
  Analytical.ftt01w rt_i a w err k_terms
  = Ok (if Analytical.compute_k rt_i err
        then fast_sum (rt_i / a ^ 2) w (Analytical.fast_index k_terms)
        else Analytical.ftt01w_slow (rt_i / a ^ 2) w k_terms).
Proof.
  unfold Analytical.ftt01w. rewrite ftt01w_fast_value by exact k_terms_pos.
  simpl. f_equal. destruct (Analytical.compute_k rt_i err); simpl; ring.
Qed.

(** C6, as amended.  With at least one series term, the pytensor evaluator
    returns at every position exactly the fast value where [compute_k] is
    true and exactly the slow value where it is false: the blend
    [lambda_rt * p_fast + (1 - lambda_rt) * p_slow] is a select.  The
    aesara evaluator (a closure fresh from [decision_func]) selects with
    [switch] and then multiplies by [p > 0]: its output is the selected
    value where that is positive and [0] elsewhere. *)
Theorem blend_selects_kernel :
  (exists l,
      Analytical.ftt01w_rows rt a w err k_terms = Ok l /\
      forall i rt_i,
        nth_error rt i = Some rt_i ->
        exists p_fast,
          Analytical.ftt01w_fast (rt_i / a ^ 2) w k_terms = Ok p_fast /\
          nth_error l i
          = Some (if Analytical.compute_k rt_i err then p_fast
                  else Analytical.ftt01w_slow (rt_i / a ^ 2) w k_terms))
  /\
  (exists l,
      fst (Aesara.ftt01w Aesara.decision_func rt a w err k_terms) = Ok l /\
      forall i rt_i,
        nth_error rt i = Some rt_i ->
        exists p_fast,
          Aesara.ftt01w_fast (rt_i / a ^ 2) w k_terms = Ok p_fast /\
          nth_error l i
          = Some (let p := if Aesara.lambda_rt rt_i err then p_fast
                           else Aesara.ftt01w_slow (rt_i / a ^ 2) w k_terms in
                  if pt_gt p 0 then p else 0)).
Proof.
  split.
  - unfold Analytical.ftt01w_rows.
    destruct (mapM_total (fun rt_i => Analytical.ftt01w rt_i a w err k_terms) rt)
      as [l Hl].
    { intros x _. rewrite ftt01w_value. eexists; reflexivity. }
    exists l. split; [exact Hl|]. intros i rt_i Hi.
    destruct (mapM_nth_error _ _ _ Hl i rt_i Hi) as [y [Hy Hf]].
    rewrite ftt01w_value in Hf. injection Hf as <-.
    eexists. split; [apply ftt01w_fast_value; exact k_terms_pos|exact Hy].
  - rewrite aesara_ftt01w_fresh.
    destruct (mapM_total
                (fun rt_i => Aesara.ftt01w_entry a w k_terms
                               (Aesara.lambda_rt rt_i err, rt_i)) rt) as [l Hl].
    { intros x _.
      destruct (aesara_entry_value a w k_terms (Aesara.lambda_rt x err) x
                  k_terms_pos) as [pf [_ ->]].
      eexists; reflexivity. }
    exists l. split; [exact Hl|]. intros i rt_i Hi.
    destruct (mapM_nth_error _ _ _ Hl i rt_i Hi) as [y [Hy Hf]].
    destruct (aesara_entry_value a w k_terms (Aesara.lambda_rt rt_i err) rt_i
                k_terms_pos) as [pf [Hpf Hval]].
    rewrite Hval in Hf. injection Hf as <-.
    exists pf. split; [exact Hpf|exact Hy].
Qed.

End Evaluator.

(** ** The fast expansion *)

(** C7, as amended.  For [tt > 0], [w] in (0, 1) and [k_terms >= 1],
    [ftt01w_fast] returns the sum of the terms
    [(w + 2k) * exp(-(w + 2k)^2 / (2 tt))] divided by [sqrt(2 pi tt^3)],
    taken over the [k_terms] integers [k] from [-floor((k_terms - 1) / 2)] to
    [ceil((k_terms - 1) / 2)], each once; and whatever [c] is subtracted in
    the exponents, [exp(c) * sum(term * exp(exponent - c))] is the plain
    sum. *)
Theorem fast_expansion_is_plain_sum (tt w : R) (k_terms : Z) :
  0 < tt -> 0 < w < 1 -> (1 <= k_terms)%Z ->
  Analytical.ftt01w_fast tt w k_terms
  = Ok (fast_sum tt w (Analytical.fast_index k_terms))
  /\ (forall k, In k (Analytical.fast_index k_terms)
                <-> (- floor_half (k_terms - 1) <= k <= ceil_half (k_terms - 1))%Z)
  /\ NoDup (Analytical.fast_index k_terms)
  /\ length (Analytical.fast_index k_terms) = Z.to_nat k_terms
  /\ (forall c : R,
        exp c * pt_sum (map (fun yr => fst yr * exp (snd yr - c))
                          (map (fun k => (w + 2 * IZR k,
                                          - (w + 2 * IZR k) ^ 2 / (2 * tt)))
                               (Analytical.fast_index k_terms)))
        = pt_sum (map (fast_term tt w) (Analytical.fast_index k_terms))).
Proof.
  intros _ _ Hk. split; [now apply ftt01w_fast_value|].
  split; [apply fast_index_In|].
  split; [apply arange_NoDup|].
  split; [now apply fast_index_length|].
  intros c. rewrite log_sum_exp_exact, map_map. reflexivity.
Qed.

(** ** The two regime selectors *)

Section Disagreement.

Variables rt err : R.
Hypothesis rt_def : rt = 1 / (2 * PI).
Hypothesis err_def : err = exp (- (9 / 2) * PI).

Lemma disagreement_inputs :
  0 < rt < 1 /\ 0 < err < 1 / 2 /\ ln err = - (9 / 2) * PI /\
  2 * PI * rt = 1 /\ PI * rt * err = err / 2 /\ PI ^ 2 * rt = PI / 2
  /\ rt <= sqrt rt <= 1.
Proof.
  pose proof PI_gt_2 as Hpi. rewrite rt_def, err_def.
  assert (Hr : 0 < 1 / (2 * PI) < 1).
  { split.
    - apply Rdiv_lt_0_compat; lra.
    - apply (Rmult_lt_reg_r (2 * PI)); [lra|]. field_simplify; lra. }
  assert (He : 0 < exp (- (9 / 2) * PI) < 1 / 2).
  { split; [apply exp_pos|].
    apply Rlt_trans with (exp (Ropp 1)).
    - apply exp_increasing. lra.
    - rewrite exp_Ropp. pose proof exp_1_gt_2 as H2.
      apply (Rmult_lt_reg_r (exp 1)); [lra|]. field_simplify; lra. }
  split; [exact Hr|]. split; [exact He|]. split; [apply ln_exp|].
  split; [field; lra|]. split; [field; lra|]. split; [field; lra|].
  assert (Hs1 : sqrt (1 / (2 * PI)) <= 1) by (apply sqrt_le_bound; lra).
  split; [|exact Hs1].
  pose proof (sqrt_pos (1 / (2 * PI))) as Hs0.
  pose proof (sqrt_sqrt (1 / (2 * PI))) as Hss.
  assert (Hss' : sqrt (1 / (2 * PI)) * sqrt (1 / (2 * PI)) = 1 / (2 * PI))
    by (apply Hss; lra).
  nra.
Qed.

Lemma aesara_prefers_fast : Aesara.lambda_rt rt err = true.
Proof.
  destruct disagreement_inputs as [Hr [He [Hln [E1 [E2 [E3 Hs]]]]]].
  pose proof PI_gt_2 as Hpi. pose proof ln_2_bounds as Hl2.
  unfold Aesara.lambda_rt. cbv zeta.
  rewrite E1, E2, E3, sqrt_1.
  rewrite (pt_lt_true (2 * 1 * err)) by lra.
  rewrite (pt_lt_true (err / 2)) by lra.
  apply pt_lt_true.
  replace (2 * 1 * err) with (2 * err) by ring.
  rewrite ln_mult by lra. rewrite ln_half by lra. rewrite Hln.
  assert (Hp : 0 < rt * ln 2) by (apply Rmult_lt_0_compat; lra).
  assert (Hq : 0 < ln 2 / PI) by (apply Rdiv_lt_0_compat; lra).
  replace (-2 * rt * (ln 2 + - (9 / 2) * PI))
    with (9 / 2 * (2 * PI * rt) - 2 * (rt * ln 2)) by ring.
  replace (-2 * (- (9 / 2) * PI - ln 2) / (PI / 2))
    with (18 + 4 * (ln 2 / PI)) by (field; lra).
  rewrite E1.
  assert (Hks : sqrt (9 / 2 * 1 - 2 * (rt * ln 2)) <= 2.13)
    by (apply sqrt_le_bound; lra).
  assert (Hkl : 4.2 <= sqrt (18 + 4 * (ln 2 / PI)))
    by (apply sqrt_ge_bound; lra).
  apply Rlt_le_trans with 4.2; [|eapply Rle_trans; [exact Hkl|apply Rmax_l]].
  apply Rmax_lub_lt; lra.
Qed.

Lemma pytensor_prefers_slow : Analytical.compute_k rt err = false.
Proof.
  destruct disagreement_inputs as [Hr [He [Hln [E1 [E2 [E3 Hs]]]]]].
  pose proof PI_gt_2 as Hpi. pose proof ln_2_bounds as Hl2.
  unfold Analytical.compute_k. cbv zeta.
  rewrite E2, E3.
  assert (Hh : 0 <= sqrt (err / 2) <= 1).
  { split; [apply sqrt_pos|apply sqrt_le_bound; lra]. }
  assert (Ha : 0 < 2 * sqrt (err / 2) * err < 1).
  { pose proof (sqrt_lt_R0 (err / 2)). nra. }
  rewrite (pt_lt_true (2 * sqrt (err / 2) * err)) by lra.
  rewrite (pt_lt_true (err / 2)) by lra.
  simpl floatX. apply pt_lt_false.
  pose proof (sqrt_lt_R0 (err / 2)) as Hh0.
  rewrite (ln_mult (2 * sqrt (err / 2)) err) by lra.
  rewrite (ln_mult 2 (sqrt (err / 2))) by lra.
  rewrite ln_sqrt_half by lra. rewrite ln_half by lra. rewrite Hln.
  assert (Hr4 : rt < 1 / 4) by nra.
  assert (Hp : 0 < rt * ln 2 < 1 / 4) by nra.
  assert (Hq : 0 < ln 2 / PI < 1 / 2).
  { split; [apply Rdiv_lt_0_compat; lra|].
    apply (Rmult_lt_reg_r PI); [lra|]. field_simplify; lra. }
  replace (-2 * rt * (ln 2 + (- (9 / 2) * PI - ln 2) / 2 + - (9 / 2) * PI))
    with (27 / 4 * (2 * PI * rt) - rt * ln 2) by field.
  replace (-2 * (- (9 / 2) * PI - ln 2) / (PI / 2))
    with (18 + 4 * (ln 2 / PI)) by (field; lra).
  rewrite E1.
  assert (Hks : 2.5 <= sqrt (27 / 4 * 1 - rt * ln 2))
    by (apply sqrt_ge_bound; lra).
  assert (Hkl : sqrt (18 + 4 * (ln 2 / PI)) <= 4.5)
    by (apply sqrt_le_bound; lra).
  assert (Hb : 1 / (PI * sqrt rt) <= 2).
  { assert (Hd : 1 / 2 <= PI * sqrt rt) by nra.
    replace 2 with (/ (1 / 2)) by field.
    unfold Rdiv at 1. rewrite Rmult_1_l.
    apply Rinv_le_contravar; lra. }
  pose proof (Rmax_l (2 + sqrt (27 / 4 * 1 - rt * ln 2)) (sqrt rt + 1)) as Hm.
  assert (Hlub : Rmax (1 / (PI * sqrt rt)) (sqrt (18 + 4 * (ln 2 / PI))) <= 4.5)
    by (apply Rmax_lub; lra).
  lra.
Qed.

End Disagreement.

(** C9.  The two selectors do not compute the same indicator: at
    [rt = 1 / (2 pi)] and [err = exp(-9 pi / 2)], both positive, [compute_k]
    of the pytensor code answers false (slow) while the closure of the aesara
    code, fresh from [decision_func], answers true (fast).  Both compare [ks]
    with [kl]; they differ in the quantity under the logarithm of [ks],
    [2 sqrt(pi rt err) err] against [2 sqrt(2 pi rt) err]. *)
Theorem selectors_disagree :
  exists rt err : R,
    0 < rt /\ 0 < err /\
    Analytical.compute_k rt err = false /\
    fst (Aesara.inner_func Aesara.decision_func [rt] err) = [true].
Proof.
  exists (1 / (2 * PI)), (exp (- (9 / 2) * PI)).
  pose proof PI_gt_2 as Hpi.
  split; [apply Rdiv_lt_0_compat; lra|]. split; [apply exp_pos|].
  split; [now apply pytensor_prefers_slow|].
  unfold Aesara.inner_func. simpl.
  now rewrite (aesara_prefers_fast _ _ eq_refl eq_refl).
Qed.

(** ** The backward rule of the bridge *)

Section Backward.

Import Lan.

Variable tensor : Type.
Variable vjp_fn : tensor -> list tensor -> tensor -> list tensor.

(** [jax.vjp] hands back one cotangent for each primal argument. *)
Hypothesis vjp_fn_arity :
  forall data dist_params gz,
    length (vjp_fn data dist_params gz) = S (length dist_params).

Lemma vjp_node_outputs data dist_params gz i :
  (i < length dist_params)%nat ->
  nth_error (node_outputs (make_node_vjp data dist_params gz)) i
  = Some (Output LANLogpVJPOp ([data] ++ dist_params ++ [gz]) i).
Proof.
  intros Hi. unfold make_node_vjp. simpl node_outputs.
  rewrite nth_error_map, nth_error_seq.
  destruct (Nat.ltb_spec i (length dist_params)) as [_|H]; [reflexivity|lia].
Qed.

Lemma vjp_node_outputs_length data dist_params gz :
  length (node_outputs (make_node_vjp data dist_params gz)) = length dist_params.
Proof. simpl. now rewrite length_map, length_seq. Qed.

(** With no parameter or with several, [grad] answers with the null variable
    of [grad_not_implemented] for the data input followed by the outputs of
    the VJP node built on the same data and parameters and on the upstream
    gradient [output_gradients[0]], one per parameter, in order. *)
Lemma grad_delegates_to_vjp_node
  (data : variable) (dist_params : list variable) (gz : variable)
  (other_gradients : list variable) :
  length dist_params <> 1%nat ->
  grad (data :: dist_params) (gz :: other_gradients)
  = Ok (grad_not_implemented LANLogpOp 0 data
        :: node_outputs (make_node_vjp data dist_params gz))
  /\ node_inputs (make_node_vjp data dist_params gz)
     = [data] ++ dist_params ++ [gz]
  /\ length (node_outputs (make_node_vjp data dist_params gz))
     = length dist_params
  /\ (forall i, (i < length dist_params)%nat ->
        nth_error (node_outputs (make_node_vjp data dist_params gz)) i
        = Some (Output LANLogpVJPOp ([data] ++ dist_params ++ [gz]) i)).
Proof.
  intros Hn. split.
  { unfold grad, lan_logp_vjp_op, op_call.
    pose proof (vjp_node_outputs_length data dist_params gz) as Hl.
    destruct (node_outputs (make_node_vjp data dist_params gz)) as [|v [|v' vs]];
      simpl in Hl; [reflexivity| |reflexivity].
    congruence. }
  split; [reflexivity|]. split; [apply vjp_node_outputs_length|].
  intros i Hi. now apply vjp_node_outputs.
Qed.

(** Evaluating the VJP node calls [vjp_vmap_logp], which returns the
    cotangents of [jax.vjp] without the first, the one of the data: one
    gradient per parameter. *)
Lemma vjp_drops_data_cotangent (d : tensor) (ps : list tensor) (g : tensor) :
  perform_vjp tensor vjp_fn ([d] ++ ps ++ [g])
  = Ok (vjp_vmap_logp tensor vjp_fn d ps g)
  /\ length (vjp_vmap_logp tensor vjp_fn d ps g) = length ps
  /\ (forall i, nth_error (vjp_vmap_logp tensor vjp_fn d ps g) i
                = nth_error (vjp_fn d ps g) (S i)).
Proof.
  split.
  { unfold perform_vjp. change ([d] ++ ps ++ [g]) with (d :: (ps ++ [g])).
    cbv beta iota. rewrite rev_app_distr. cbn [rev app].
    now rewrite rev_involutive. }
  split.
  { unfold vjp_vmap_logp. rewrite length_skipn, vjp_fn_arity. lia. }
  intros i. unfold vjp_vmap_logp.
  destruct (vjp_fn d ps g) as [|c cs]; [now destruct i|reflexivity].
Qed.

(** C3, at a forward node with exactly one parameter.  The VJP node then has
    one output, applying the op hands back that variable and not a list, and
    [[grad_not_implemented(...)] + results] raises: [grad] returns neither
    the unsupported-gradient signal for the data nor the output of the VJP
    node for the parameter. *)
Theorem grad_single_parameter_raises
  (data dist_param gz : variable) (other_gradients : list variable) :
  lan_logp_vjp_op data [dist_param] gz
  = Single (Output LANLogpVJPOp [data; dist_param; gz] 0)
  /\ grad [data; dist_param] (gz :: other_gradients) = Raise TypeError.
Proof. split; reflexivity. Qed.

End Backward.

(** * The theorems at concrete inputs *)

Lemma logp_ddm_sdv_zero_delegates_witness :
  Analytical.logp_ddm_sdv [(1, 1)] 0 1 (1 / 2) 0 (Analytical.PyNumber 0) 1 1 (1 / 10)
  = Analytical.logp_ddm [(1, 1)] 0 1 (1 / 2) 0 1 1 (1 / 10)
  /\ Analytical.logp_ddm_sdv [(1, 1)] 0 1 (1 / 2) 0
       (Analytical.TensorVariable 0) 1 1 (1 / 10)
     = Raise (ParameterValueError "sv > 0").
Proof.
  destruct (logp_ddm_sdv_zero_delegates [(1, 1)] 0 1 (1 / 2) 0 1 1 (1 / 10))
    as [H1 H2].
  split; [exact H1|].
  destruct (H2 ltac:(lia)) as [msg [H Hmsg]].
  rewrite H, Hmsg; [reflexivity|lra|lra].
Defined.

(** The same call through the two forms of [sv = 0]: the tensor variable
    is not handed over, the check [sv > 0] fails, and [logp_ddm] on the same
    arguments returns numbers. *)
Lemma tensor_zero_sv_not_delegated :
  Analytical.logp_ddm_sdv [(1, 1)] 0 1 (1 / 2) 0
    (Analytical.TensorVariable 0) 1 1 (1 / 10)
  = Raise (ParameterValueError "sv > 0")
  /\ exists l, Analytical.logp_ddm [(1, 1)] 0 1 (1 / 2) 0 1 1 (1 / 10) = Ok l.
Proof.
  split.
  - destruct (logp_sdv_rows_Ok 0 (1 * 2) (1 / 2) 0 0 1 1 (1 / 10)
                ltac:(lia) [(1, 1)]) as [l Hl].
    rewrite (logp_ddm_sdv_checks _ _ _ _ _ (Analytical.TensorVariable 0)
               _ _ _ l eq_refl Hl).
    rewrite pt_ge_true by lra. rewrite pt_ge_true by lra.
    rewrite pt_le_true by lra. simpl Analytical.value.
    rewrite pt_gt_false by lra. reflexivity.
  - destruct (logp_rows_Ok 0 (1 * 2) (1 / 2) 0 1 1 (1 / 10) ltac:(lia) [(1, 1)])
      as [l Hl].
    exists l. apply logp_ddm_valid; [lra|lra|exact Hl].
Qed.

Lemma degenerate_rows_floor_witness :
  exists l l_sv,
    Analytical.logp_ddm [(1, 1)] 0 1 (1 / 2) 2 1 1 (1 / 10) = Ok l /\
    Analytical.logp_ddm_sdv [(1, 1)] 0 1 (1 / 2) 2
      (Analytical.TensorVariable 1) 1 1 (1 / 10) = Ok l_sv /\
    forall i x,
      nth_error [(1, 1)] i = Some x ->
      Rabs (fst x) - 2 <= 1 / 10 ->
      nth_error l i = Some Analytical.LOGP_LB
      /\ nth_error l_sv i = Some Analytical.LOGP_LB.
Proof.
  apply (degenerate_rows_floor [(1, 1)] 0 1 (1 / 2) 2
           (Analytical.TensorVariable 1) 1 1 (1 / 10));
    [lra|lra|left; simpl; lra|lia].
Defined.

(** The check of [sv] stands before the floor: with [a = 1], [z = 1/2] and
    a tensor variable [sv] of value [0], inside the documented range
    [[0, inf)], the row below, whose decision time [1 - 2] is under
    [epsilon], yields no number. *)
Lemma degenerate_row_tensor_zero_sv :
  0 < 1 /\ 0 < 1 / 2 < 1 /\
  Rabs (fst (1, 1)) - 2 <= 1 / 10 /\
  Analytical.logp_ddm_sdv [(1, 1)] 0 1 (1 / 2) 2
    (Analytical.TensorVariable 0) 1 1 (1 / 10)
  = Raise (ParameterValueError "sv > 0").
Proof.
  split; [lra|]. split; [lra|]. split.
  { simpl fst. rewrite Rabs_R1. lra. }
  destruct (logp_sdv_rows_Ok 0 (1 * 2) (1 / 2) 2 0 1 1 (1 / 10)
              ltac:(lia) [(1, 1)]) as [l Hl].
  rewrite (logp_ddm_sdv_checks _ _ _ _ _ (Analytical.TensorVariable 0)
             _ _ _ l eq_refl Hl).
  rewrite pt_ge_true by lra. rewrite pt_ge_true by lra.
  rewrite pt_le_true by lra. simpl Analytical.value.
  rewrite pt_gt_false by lra. reflexivity.
Qed.

Lemma choice_flip_invariance_witness :
  Analytical.logp_ddm (map flip_choice [(1, 1)]) (- 1) 1 (1 - 1 / 2) 0 1 1 (1 / 10)
  = Analytical.logp_ddm [(1, 1)] 1 1 (1 / 2) 0 1 1 (1 / 10)
  /\ Analytical.logp_ddm (map flip_signed [(1, 1)]) (- 1) 1 (1 - 1 / 2) 0 1 1 (1 / 10)
     = Analytical.logp_ddm [(1, 1)] 1 1 (1 / 2) 0 1 1 (1 / 10).
Proof.
  apply (choice_flip_invariance 1 1 (1 / 2) 0 1 1 (1 / 10) [(1, 1)]).
  - constructor; [simpl; lra|constructor].
  - lra.
Defined.

(** C5.  The evaluator is not strictly positive on the inputs that the
    claim admits.  At [rt = 1], [a = 10], [w = 3/4], [err = 1] and
    [k_terms = 2] both selectors pick the slow series, whose two terms sum
    to a negative number: the pytensor evaluator returns that negative
    number, and the aesara evaluator, whose last line is meant to make sure
    that [p > 0], returns [0]. *)
Theorem density_not_positive :
  Forall (fun rt_i => 0 < rt_i) [1] /\ 0 < 10 /\ 0 < 3 / 4 < 1 /\ 0 < 1 /\
  (1 <= 2)%Z /\
  (exists p, Analytical.ftt01w_rows [1] 10 (3 / 4) 1 2 = Ok [p] /\ p < 0) /\
  fst (Aesara.ftt01w Aesara.decision_func [1] 10 (3 / 4) 1 2) = Ok [0].
Proof.
  split; [constructor; [lra|constructor]|].
  split; [lra|]. split; [lra|]. split; [lra|]. split; [lia|]. split.
  - destruct ftt01w_negative_example as [p [Hp Hneg]].
    exists p. split; [|exact Hneg].
    unfold Analytical.ftt01w_rows. rewrite mapM_one, Hp. reflexivity.
  - rewrite aesara_ftt01w_fresh, mapM_one.
    destruct (aesara_entry_value 10 (3 / 4) 2 (Aesara.lambda_rt 1 1) 1)
      as [pf [_ ->]]; [lia|].
    rewrite aesara_selector_slow_example. cbv zeta.
    rewrite pt_gt_false by (left; apply slow_negative_example).
    reflexivity.
Qed.

Lemma blend_selects_kernel_witness :
  exists l,
    Analytical.ftt01w_rows [1] 1 (1 / 2) 1 1 = Ok l /\
    forall i rt_i,
      nth_error [1] i = Some rt_i ->
      exists p_fast,
        Analytical.ftt01w_fast (rt_i / 1 ^ 2) (1 / 2) 1 = Ok p_fast /\
        nth_error l i
        = Some (if Analytical.compute_k rt_i 1 then p_fast
                else Analytical.ftt01w_slow (rt_i / 1 ^ 2) (1 / 2) 1).
Proof.
  apply (blend_selects_kernel [1] 1 (1 / 2) 1 1). lia.
Defined.

(** The aesara evaluator on the same row: the slow value is selected, it is
    negative, and the output is [0]. *)
Lemma aesara_output_clamped :
  Aesara.lambda_rt 1 1 = false /\
  Aesara.ftt01w_slow (1 / 10 ^ 2) (3 / 4) 2 < 0 /\
  fst (Aesara.ftt01w Aesara.decision_func [1] 10 (3 / 4) 1 2) = Ok [0].
Proof.
  split; [apply aesara_selector_slow_example|].
  split; [apply slow_negative_example|].
  rewrite aesara_ftt01w_fresh, mapM_one.
  destruct (aesara_entry_value 10 (3 / 4) 2 (Aesara.lambda_rt 1 1) 1)
    as [pf [_ ->]]; [lia|].
  rewrite aesara_selector_slow_example. cbv zeta.
  rewrite pt_gt_false by (left; apply slow_negative_example).
  reflexivity.
Qed.

Lemma fast_expansion_is_plain_sum_witness :
  Analytical.ftt01w_fast (1 / 2) (1 / 2) 3
  = Ok (fast_sum (1 / 2) (1 / 2) (Analytical.fast_index 3)).
Proof.
  apply (fast_expansion_is_plain_sum (1 / 2) (1 / 2) 3); [lra|lra|lia].
Defined.

(** With three terms the code sums over [-1, 0, 1]; the range from
    [ceil(1)] to [floor(1)] holds [1] alone, and the two sums differ. *)
Lemma claimed_index_misses_terms :
  0 < 1 / 2 /\ 0 < 1 / 2 < 1 /\ (1 <= 3)%Z /\
  Analytical.fast_index 3 = [-1; 0; 1]%Z /\
  claimed_index 3 = [1%Z] /\
  Analytical.ftt01w_fast (1 / 2) (1 / 2) 3
  <> Ok (fast_sum (1 / 2) (1 / 2) (claimed_index 3)).
Proof.
  split; [lra|]. split; [lra|]. split; [lia|].
  split; [reflexivity|]. split; [reflexivity|].
  rewrite ftt01w_fast_value by lia.
  change (Analytical.fast_index 3) with [-1; 0; 1]%Z.
  change (claimed_index 3) with [1%Z].
  intros H. injection H as H.
  unfold fast_sum in H.
  pose proof (normalisation_pos (1 / 2)) as Hn.
  apply Rmult_eq_reg_r in H; [|apply Rinv_neq_0_compat; lra].
  cbv [map pt_sum fold_right fast_term] in H.
  replace (- (1 / 2 + 2 * 0) ^ 2 / (2 * (1 / 2))) with (- (9 / 4) + 2) in H by field.
  replace (- (1 / 2 + 2 * -1) ^ 2 / (2 * (1 / 2))) with (- (9 / 4)) in H by field.
  rewrite exp_plus in H.
  pose proof (exp_pos (- (9 / 4))) as He.
  pose proof (exp_ineq1 2) as He2.
  assert (3 < exp 2) by lra.
  nra.
Qed.

Lemma parameter_violations_signalled_witness :
  (exists msg,
      Analytical.logp_ddm [(1, 1)] 0 (-1) (1 / 2) 0 1 1 (1 / 10)
      = Raise (ParameterValueError msg))
  /\ (exists msg,
         Analytical.logp_ddm_sdv [(1, 1)] 0 (-1) (1 / 2) 0
           (Analytical.TensorVariable 0) 1 1 (1 / 10)
         = Raise (ParameterValueError msg)).
Proof.
  destruct (parameter_violations_signalled
              [(1, 1)] 0 (-1) (1 / 2) 0 (Analytical.TensorVariable 0) 1 1 (1 / 10)
              ltac:(lia))
    as [logp [logp_sv [_ [_ [Hbad [Hbad_sv _]]]]]].
  split; [apply Hbad|apply Hbad_sv]; left; lra.
Defined.

(** No check fires at [a = 0], nor at the Python number [0] for [sv] in
    the [sv] variant: both calls return numbers. *)
Lemma zero_boundary_passes_checks :
  (exists l, Analytical.logp_ddm [(1, 1)] 0 0 (1 / 2) 0 1 1 (1 / 10) = Ok l) /\
  (exists l, Analytical.logp_ddm_sdv [(1, 1)] 0 1 (1 / 2) 0
               (Analytical.PyNumber 0) 1 1 (1 / 10) = Ok l).
Proof.
  split.
  - destruct (logp_rows_Ok 0 (0 * 2) (1 / 2) 0 1 1 (1 / 10) ltac:(lia) [(1, 1)])
      as [l Hl].
    exists l. apply logp_ddm_valid; [lra|lra|exact Hl].
  - rewrite logp_ddm_sdv_at_zero.
    destruct (logp_rows_Ok 0 (1 * 2) (1 / 2) 0 1 1 (1 / 10) ltac:(lia) [(1, 1)])
      as [l Hl].
    exists l. apply logp_ddm_valid; [lra|lra|exact Hl].
Qed.

Lemma density_floor_bounds_log_witness :
  exists logp,
    Analytical.logp_ddm [(1, 1)] 0 1 (1 / 2) 0 1 1 (1 / 10) = Ok logp.
Proof.
  destruct (density_floor_bounds_log
              [(1, 1)] 0 1 (1 / 2) 0 1 1 1 (1 / 10)
              ltac:(lra) ltac:(lra) ltac:(lia))
    as [logp [logp_sv [_ [_ [H _]]]]].
  exists logp. exact H.
Defined.

(** * The rest of the code *)

(** ** analytical.py: more on the entry points *)

Section MoreAssembler.

Import Analytical.

Variables (v a z t : R) (sv : scalar_arg) (err : R) (k_terms : Z) (epsilon : R).

Lemma logp_ddm_sdv_row_flip (a2 : R) (x x' : row) :
  snd x <> 0 ->
  Rabs (fst x') = Rabs (fst x) ->
  snd x' = - snd x ->
  logp_ddm_sdv_row (- v) a2 (1 - z) t (value sv) err k_terms epsilon x'
  = logp_ddm_sdv_row v a2 z t (value sv) err k_terms epsilon x.
Proof.
  intros Hnz Habs Hneg. unfold logp_ddm_sdv_row. rewrite Habs, Hneg.
  destruct (Rgt_dec (snd x) 0) as [Hpos|Hneg0].
  - rewrite (pt_gt_true (snd x)) by exact Hpos.
    rewrite (pt_gt_false (- snd x)) by lra. simpl floatX.
    replace (0 * - - v + (1 - 0) * - v) with (1 * - v + (1 - 1) * v) by ring.
    replace (0 * (1 - (1 - z)) + (1 - 0) * (1 - z))
      with (1 * (1 - z) + (1 - 1) * z) by ring.
    reflexivity.
  - rewrite (pt_gt_false (snd x)) by lra.
    rewrite (pt_gt_true (- snd x)) by lra. simpl floatX.
    replace (1 * - - v + (1 - 1) * - v) with (0 * - v + (1 - 0) * v) by ring.
    replace (1 * (1 - (1 - z)) + (1 - 1) * (1 - z))
      with (0 * (1 - z) + (1 - 0) * z) by ring.
    reflexivity.
Qed.

(** X1.  The choice flip of C4 for the [sv] variant: on data whose response
    column is never zero, negating every response together with [v -> -v]
    and [z -> 1 - z] leaves what [logp_ddm_sdv] returns unchanged, for [z]
    in [[0, 1]] and every [sv], a number or a tensor variable. *)
Theorem choice_flip_invariance_sdv (data : list row) :
  Forall (fun x : row => snd x <> 0) data ->
  0 <= z <= 1 ->
  logp_ddm_sdv (map flip_choice data) (- v) a (1 - z) t sv err k_terms epsilon
  = logp_ddm_sdv data v a z t sv err k_terms epsilon.
Proof.
  intros Hdata Hz. unfold logp_ddm_sdv.
  destruct (py_eq_zero sv).
  - apply logp_ddm_flip_rows; [|exact Hdata|exact Hz].
    intros x. split; reflexivity.
  - cbv zeta. rewrite mapM_map.
    rewrite (mapM_ext _ (logp_ddm_sdv_row v (a * 2) z t (value sv) err
                           k_terms epsilon)).
    + destruct (mapM _ data) as [logp|e]; simpl; [|reflexivity].
      unfold check_parameters.
      destruct (pt_ge (a * 2) 0); simpl; [|reflexivity].
      destruct Hz as [Hz0 Hz1].
      rewrite (pt_ge_true (1 - z)), (pt_ge_true z) by lra. simpl.
      rewrite (pt_le_true (1 - z)), (pt_le_true z) by lra. reflexivity.
    + intros x Hx. rewrite Forall_forall in Hdata.
      apply logp_ddm_sdv_row_flip; [now apply Hdata|reflexivity|reflexivity].
Qed.

(** X2.  Both entry points read the time column through [abs]: changing
    the sign of the response times, the responses kept, changes nothing in
    what they return.  The choice is carried by the response column alone. *)
Theorem time_sign_ignored (data : list row) :
  logp_ddm (map negate_time data) v a z t err k_terms epsilon
  = logp_ddm data v a z t err k_terms epsilon
  /\ logp_ddm_sdv (map negate_time data) v a z t sv err k_terms epsilon
     = logp_ddm_sdv data v a z t sv err k_terms epsilon.
Proof.
  assert (H1 : logp_ddm (map negate_time data) v a z t err k_terms epsilon
               = logp_ddm data v a z t err k_terms epsilon).
  { unfold logp_ddm. rewrite mapM_map.
    rewrite (mapM_ext _ (logp_ddm_row v (a * 2) z t err k_terms epsilon));
      [reflexivity|].
    intros x _. unfold logp_ddm_row, negate_time. simpl fst; simpl snd.
    now rewrite Rabs_Ropp. }
  split; [exact H1|].
  unfold logp_ddm_sdv. destruct (py_eq_zero sv); [exact H1|].
  cbv zeta. rewrite mapM_map.
  rewrite (mapM_ext _ (logp_ddm_sdv_row v (a * 2) z t (value sv) err
                         k_terms epsilon));
    [reflexivity|].
  intros x _. unfold logp_ddm_sdv_row, negate_time. simpl fst; simpl snd.
  now rewrite Rabs_Ropp.
Qed.

(** X3.  The row formula of the [sv] branch, taken at [sv = 0], is the row
    formula of [logp_ddm]: handing [sv = 0] over to [logp_ddm] changes no
    value of [logp], it only leaves out the check [sv > 0]. *)
Theorem sv_formula_at_zero (a2 : R) (x : row) :
  logp_ddm_sdv_row v a2 z t 0 err k_terms epsilon x
  = logp_ddm_row v a2 z t err k_terms epsilon x.
Proof.
  unfold logp_ddm_sdv_row, logp_ddm_row.
  destruct (ftt01w _ a2 _ err k_terms) as [d|e]; simpl; [|reflexivity].
  f_equal.
  match goal with |- context [ln (0 * (0 * 1) * ?tt + 1)] =>
    replace (0 * (0 * 1) * tt + 1) with 1 by ring end.
  rewrite ln_1. field.
Qed.

End MoreAssembler.

(** ** The two fast expansions *)

Lemma fast_exponent_same y tt : - y ^ 2 / 2 / tt = - y ^ 2 / (2 * tt).
Proof. unfold Rdiv. rewrite Rinv_mult. ring. Qed.

(** X5.  The fast expansion of wfpt.py, [exp(c + log(sum))], and the one of
    analytical.py, [exp(c) * sum], return the same value whenever the sum of
    the terms is positive (with at least one term). *)
Theorem fast_expansions_agree (tt w : R) (k_terms : Z) :
  (1 <= k_terms)%Z ->
  0 < pt_sum (map (fast_term tt w) (Analytical.fast_index k_terms)) ->
  Aesara.ftt01w_fast tt w k_terms = Analytical.ftt01w_fast tt w k_terms.
Proof.
  intros Hk Hpos. rewrite ftt01w_fast_value by exact Hk.
  unfold Aesara.ftt01w_fast, fast_sum.
  change (arange (- floor_half (k_terms - 1)) (ceil_half (k_terms - 1) + 1))
    with (Analytical.fast_index k_terms).
  set (ys := map (fun k => w + 2 * k) (map IZR (Analytical.fast_index k_terms))).
  assert (Hr : map (fun y => - y ^ 2 / 2 / tt) ys
               = map (fun y => - y ^ 2 / (2 * tt)) ys).
  { apply map_ext. intros y. apply fast_exponent_same. }
  rewrite Hr.
  pose proof (fast_index_nonempty k_terms Hk) as Hne.
  assert (Hmax : exists c, pt_max (map (fun y => - y ^ 2 / (2 * tt)) ys) = Ok c).
  { unfold ys. destruct (Analytical.fast_index k_terms); [congruence|].
    simpl. eexists; reflexivity. }
  destruct Hmax as [c ->]. cbv beta iota delta [bind].
  assert (Hsum : exp c * pt_sum (map (fun yr => fst yr * exp (snd yr - c))
                                   (combine ys (map (fun y => - y ^ 2 / (2 * tt)) ys)))
                 = pt_sum (map (fast_term tt w) (Analytical.fast_index k_terms))).
  { rewrite log_sum_exp_exact. unfold ys.
    rewrite combine_map_map, !map_map. reflexivity. }
  set (S := pt_sum (map (fun yr => fst yr * exp (snd yr - c))
                      (combine ys (map (fun y => - y ^ 2 / (2 * tt)) ys)))) in *.
  assert (HS : 0 < S).
  { pose proof (exp_pos c) as He. rewrite <- Hsum in Hpos.
    destruct (Rlt_dec 0 S) as [H|H]; [exact H|]. exfalso.
    assert (exp c * S <= 0) by nra. lra. }
  rewrite exp_plus, exp_ln by exact HS. rewrite Hsum. reflexivity.
Qed.

Lemma fast_expansions_agree_witness :
  Aesara.ftt01w_fast 1 (1 / 2) 1 = Analytical.ftt01w_fast 1 (1 / 2) 1.
Proof.
  apply (fast_expansions_agree 1 (1 / 2) 1); [lia|].
  change (Analytical.fast_index 1) with [0%Z].
  unfold fast_term. cbv [map pt_sum fold_right].
  pose proof (exp_pos (- (1 / 2 + 2 * 0) ^ 2 / (2 * 1))). lra.
Defined.

(** ** wfpt.py: the closure of the selector *)

Section Cache.

Import Aesara.

Lemma cache_hit_sound st rt err res :
  cache_hit st rt err = Some res ->
  internal_rt st = Some rt /\ internal_err st = Some err
  /\ internal_result st = Some res.
Proof.
  unfold cache_hit.
  destruct (internal_rt st) as [rt0|]; [|discriminate].
  destruct (internal_err st) as [err0|]; [|discriminate].
  destruct (internal_result st) as [res0|]; [|discriminate].
  destruct (list_eq_dec Req_dec_T rt rt0) as [->|]; [|discriminate].
  destruct (Req_dec_T err err0) as [->|]; [|discriminate].
  intros H. injection H as <-. auto.
Qed.

(** X6.  The closure of [decision_func] keeps its state consistent, and
    from a consistent state (compared with an array of the same length) the
    answer is the selection computed for the [rt] and [err] of the call,
    whether it comes from the saved result or not. *)
Theorem cache_is_transparent (st : decision_state) (rt : list R) (err : R) :
  cache_consistent st ->
  (forall rt0, internal_rt st = Some rt0 -> length rt0 = length rt) ->
  fst (inner_func st rt err) = map (fun rt_i => lambda_rt rt_i err) rt
  /\ cache_consistent (snd (inner_func st rt err)).
Proof.
  intros Hc _. unfold inner_func.
  destruct (cache_hit st rt err) as [res|] eqn:Hh; simpl.
  - apply cache_hit_sound in Hh. destruct Hh as [H1 [H2 H3]].
    split; [now apply (Hc rt err res)|exact Hc].
  - split; [reflexivity|].
    intros rt0 err0 res H1 H2 H3. simpl in H1, H2, H3.
    injection H1 as <-. injection H2 as <-. injection H3 as <-. reflexivity.
Qed.

(** X7.  Calling the closure again with the same [rt] and [err] returns the
    same result and leaves its state as the first call left it. *)
Theorem repeated_call_is_served_from_cache
  (st : decision_state) (rt : list R) (err : R) :
  let first := inner_func st rt err in
  inner_func (snd first) rt err = first.
Proof.
  cbv zeta. unfold inner_func at 2 3.
  destruct (cache_hit st rt err) as [res|] eqn:Hh; simpl.
  - unfold inner_func. now rewrite Hh.
  - unfold inner_func, cache_hit. simpl.
    destruct (list_eq_dec Req_dec_T rt rt) as [_|H]; [|congruence].
    destruct (Req_dec_T err err) as [_|H]; [|congruence].
    reflexivity.
Qed.

Lemma cache_is_transparent_witness :
  fst (inner_func (snd (inner_func decision_func [1] 1)) [1] 1)
  = map (fun rt_i => lambda_rt rt_i 1) [1].
Proof.
  refine (proj1 (cache_is_transparent
                   (snd (inner_func decision_func [1] 1)) [1] 1 _ _)).
  - intros rt0 err0 res H1 H2 H3.
    injection H1 as <-. injection H2 as <-. injection H3 as <-. reflexivity.
  - intros rt0 H. injection H as <-. reflexivity.
Defined.

End Cache.

(** ** wfpt.py: [log_pdf_sv] *)

Section LogPdf.

Import Aesara.

Variables (v sv a z t err : R) (k_terms : Z).

Lemma pt_gt_opp x : x <> 0 -> pt_gt (- x) 0 = negb (pt_gt x 0).
Proof.
  intros H. destruct (Rgt_dec x 0) as [Hp|Hn].
  - rewrite (pt_gt_true x), (pt_gt_false (- x)) by lra. reflexivity.
  - rewrite (pt_gt_false x), (pt_gt_true (- x)) by lra. reflexivity.
Qed.

Lemma log_pdf_sv_entry_flip (x p : R) :
  x <> 0 ->
  log_pdf_sv_entry (- v) sv a (1 - z) t (- x, p)
  = log_pdf_sv_entry v sv a z t (x, p).
Proof.
  intros H. unfold log_pdf_sv_entry. simpl fst; simpl snd.
  rewrite pt_gt_opp by exact H. rewrite Rabs_Ropp.
  destruct (pt_gt x 0); simpl negb; cbv iota.
  - reflexivity.
  - replace (- - v) with v by ring. replace (1 - (1 - z)) with z by ring.
    reflexivity.
Qed.

Lemma log_pdf_sv_entries_flip (data p : list R) :
  Forall (fun x => x <> 0) data ->
  map (log_pdf_sv_entry (- v) sv a (1 - z) t) (combine (map Ropp data) p)
  = map (log_pdf_sv_entry v sv a z t) (combine data p).
Proof.
  intros H. revert p. induction H as [|x data Hx _ IH]; intros p; [reflexivity|].
  destruct p as [|p0 p]; [reflexivity|]. simpl.
  rewrite log_pdf_sv_entry_flip by exact Hx. now rewrite IH.
Qed.

(** X8.  [log_pdf_sv] reads the choice off the sign of the response time:
    on non-zero data, negating every entry together with [v -> -v] and
    [z -> 1 - z] changes neither the result nor the state of the closure. *)
Theorem log_pdf_sv_choice_flip (st : decision_state) (data : list R) :
  Forall (fun x => x <> 0) data ->
  log_pdf_sv st (map Ropp data) (- v) sv a (1 - z) t err k_terms
  = log_pdf_sv st data v sv a z t err k_terms.
Proof.
  intros H. unfold log_pdf_sv.
  assert (Hrt : map (fun x => x - t) (map Rabs (map Ropp data))
                = map (fun x => x - t) (map Rabs data)).
  { f_equal. rewrite map_map. apply map_ext. intros x. apply Rabs_Ropp. }
  assert (Hz : map (fun f : bool => if f then 1 - (1 - z) else 1 - z)
                 (map (fun x => pt_gt x 0) (map Ropp data))
               = map (fun f : bool => if f then 1 - z else z)
                   (map (fun x => pt_gt x 0) data)).
  { rewrite !map_map. apply map_ext_in. intros x Hx.
    rewrite Forall_forall in H. rewrite pt_gt_opp by (now apply H).
    destruct (pt_gt x 0); simpl; ring. }
  rewrite Hrt, Hz.
  destruct (ftt01w_vector_w st _ a _ err k_terms) as [[p|e] st']; simpl;
    [|reflexivity].
  now rewrite log_pdf_sv_entries_flip.
Qed.

End LogPdf.

Section LogPdfChecks.

Import Aesara.

Variables (v sv a z t err : R) (k_terms : Z).
Hypothesis k_terms_pos : (1 <= k_terms)%Z.

Lemma ftt01w_vector_w_Ok st rt w :
  exists p, fst (ftt01w_vector_w st rt a w err k_terms) = Ok p
            /\ (st = decision_func -> length p = Nat.min (length rt) (length w)).
Proof.
  unfold ftt01w_vector_w.
  destruct (inner_func st rt err) as [lam st'] eqn:Hi. simpl fst.
  destruct (mapM_total (fun x => ftt01w_entry a (snd x) k_terms (fst x))
              (combine (combine lam rt) w)) as [p Hp].
  { intros [[l r] w0] _. simpl.
    destruct (aesara_entry_value a w0 k_terms l r k_terms_pos) as [pf [_ ->]].
    eexists; reflexivity. }
  exists p. split; [exact Hp|].
  intros ->. apply mapM_length in Hp. rewrite Hp.
  unfold inner_func in Hi. simpl in Hi. injection Hi as <- _.
  rewrite !length_combine, length_map. lia.
Qed.

(** X9.  With at least one series term, [log_pdf_sv] checks [sv >= 0]
    first and [a >= 0] next and nothing else: [sv < 0] and [a < 0] make the
    result a [ParameterValueError] with that message; with [sv >= 0] and
    [a >= 0] a vector is returned, whatever [z] and [t] are, of the length
    of the data when the closure is fresh. *)
Theorem log_pdf_sv_checks (st : decision_state) (data : list R) :
  (sv < 0 ->
   fst (log_pdf_sv st data v sv a z t err k_terms)
   = Raise (ParameterValueError "sv >= 0"))
  /\ (0 <= sv -> a < 0 ->
      fst (log_pdf_sv st data v sv a z t err k_terms)
      = Raise (ParameterValueError "a >= 0"))
  /\ (0 <= sv -> 0 <= a ->
      exists logp,
        fst (log_pdf_sv st data v sv a z t err k_terms) = Ok logp
        /\ (st = decision_func -> length logp = length data)).
Proof.
  unfold log_pdf_sv.
  set (rt := map (fun x => x - t) (map Rabs data)).
  set (w := map (fun f : bool => if f then 1 - z else z)
              (map (fun x => pt_gt x 0) data)).
  destruct (ftt01w_vector_w_Ok st rt w) as [p [Hp Hlen]].
  destruct (ftt01w_vector_w st rt a w err k_terms) as [rp st'].
  simpl in Hp. subst rp. simpl fst. cbv beta iota delta [bind].
  unfold check_parameters.
  split; [|split].
  - intros Hsv. rewrite pt_ge_false by lra. reflexivity.
  - intros Hsv Ha. rewrite pt_ge_true by lra. rewrite pt_ge_false by lra.
    reflexivity.
  - intros Hsv Ha. rewrite pt_ge_true by lra. rewrite pt_ge_true by lra.
    eexists. split; [reflexivity|].
    intros Hst. rewrite length_map, length_combine, (Hlen Hst).
    unfold rt, w. rewrite !length_map. lia.
Qed.

End LogPdfChecks.

Lemma log_pdf_sv_checks_witness :
  exists logp,
    fst (Aesara.log_pdf_sv Aesara.decision_func [1; -1] 0 0 1 5 0 1 1) = Ok logp
    /\ (Aesara.decision_func = Aesara.decision_func -> length logp = length [1; -1]).
Proof.
  refine (proj2 (proj2 (log_pdf_sv_checks 0 0 1 5 0 1 1 _
                          Aesara.decision_func [1; -1])) _ _); [lia|lra|lra].
Defined.

(** ** lan.py: the gradient list and the storage of the VJP node *)

Section GradShape.

Import Lan.

(** X10.  With no parameter or with several, [grad] returns one entry per
    input of the forward node, and entry [i + 1] is output [i] of the VJP
    node: no parameter receives the null gradient. *)
Theorem grad_aligned_with_inputs
  (data : variable) (dist_params : list variable) (gz : variable)
  (other_gradients : list variable) :
  length dist_params <> 1%nat ->
  exists g,
    grad (data :: dist_params) (gz :: other_gradients) = Ok g
    /\ length g = length (data :: dist_params)
    /\ (forall i v, nth_error g (S i) = Some v ->
          v = Output LANLogpVJPOp ([data] ++ dist_params ++ [gz]) i).
Proof.
  intros Hn.
  destruct (grad_delegates_to_vjp_node data dist_params gz other_gradients Hn)
    as [Hg [_ [Hl Hout]]].
  eexists. split; [exact Hg|]. split.
  - cbn [length]. now rewrite Hl.
  - intros i v Hv. cbn [nth_error] in Hv.
    assert (Hi : (i < length dist_params)%nat).
    { rewrite <- Hl. apply nth_error_Some. congruence. }
    rewrite (Hout i Hi) in Hv. now injection Hv as <-.
Qed.

End GradShape.

Section Storage.

Import Lan.

Variable tensor : Type.
Variable vjp_fn : tensor -> list tensor -> tensor -> list tensor.

Hypothesis vjp_fn_arity :
  forall data dist_params gz,
    length (vjp_fn data dist_params gz) = S (length dist_params).

Lemma store_results_fills (results : list tensor) (done : list (option tensor))
  (cells : list (option tensor)) :
  length cells = length results ->
  store_results tensor (length done) results (done ++ cells)
  = Ok (done ++ map Some results).
Proof.
  revert done cells. induction results as [|r rs IH]; intros done cells Hl.
  - destruct cells; [|discriminate]. reflexivity.
  - destruct cells as [|c cells]; [discriminate|]. simpl in Hl.
    cbn [store_results].
    assert (Hlt : (length done <? length (done ++ c :: cells))%nat = true).
    { apply Nat.ltb_lt. rewrite length_app. simpl. lia. }
    rewrite Hlt.
    assert (Hset : set_cell (length done) (Some r) (done ++ c :: cells)
                   = (done ++ [Some r]) ++ cells).
    { clear. induction done as [|d done IHd]; simpl; [reflexivity|].
      now rewrite IHd. }
    rewrite Hset.
    replace (S (length done)) with (length (done ++ [Some r]))
      by (rewrite length_app; simpl; lia).
    rewrite IH by lia. rewrite <- app_assoc. reflexivity.
Qed.

(** X11.  [LANLogpVJPOp.perform] on the inputs of a node with a cell per
    parameter writes every cell, in the order of the parameters, with the
    cotangents of [jax.vjp] but the first, and never indexes past the
    cells. *)
Theorem perform_fills_every_output (d : tensor) (ps : list tensor) (g : tensor) :
  perform_vjp_node tensor vjp_fn ([d] ++ ps ++ [g]) (repeat None (length ps))
  = Ok (map Some (vjp_vmap_logp tensor vjp_fn d ps g)).
Proof.
  unfold perform_vjp_node.
  destruct (vjp_drops_data_cotangent tensor vjp_fn vjp_fn_arity d ps g)
    as [Hp [Hl _]].
  rewrite Hp. cbv beta iota delta [bind].
  apply (store_results_fills _ [] (repeat None (length ps))).
  now rewrite repeat_length, Hl.
Qed.

End Storage.

Lemma perform_fills_every_output_witness :
  Lan.perform_vjp_node nat (fun d ps _ => d :: ps)
    ([10] ++ [20; 30] ++ [1])%nat (repeat None (length [20; 30]%nat))
  = Ok (map Some (Lan.vjp_vmap_logp nat (fun d ps _ => d :: ps)
                    10%nat [20; 30]%nat 1%nat)).
Proof.
  apply (perform_fills_every_output nat (fun d ps _ => d :: ps)
           (fun _ _ _ => eq_refl) 10%nat [20; 30]%nat 1%nat).
Defined.

Lemma grad_aligned_with_inputs_witness :
  exists g,
    Lan.grad [Lan.Given 0; Lan.Given 1; Lan.Given 2] [Lan.Given 3] = Ok g
    /\ length g = length [Lan.Given 0; Lan.Given 1; Lan.Given 2]
    /\ (forall i v, nth_error g (S i) = Some v ->
          v = Lan.Output Lan.LANLogpVJPOp
                ([Lan.Given 0] ++ [Lan.Given 1; Lan.Given 2] ++ [Lan.Given 3]) i).
Proof.
  apply (grad_aligned_with_inputs (Lan.Given 0) [Lan.Given 1; Lan.Given 2]
           (Lan.Given 3) []).
  simpl. lia.
Defined.

(** ** lan.py: the input of the network *)

Section NetworkInputs.

Import Lan.

Lemma map_const_seq {A : Type} (x : A) (s n : nat) :
  map (fun _ => x) (seq s n) = repeat x n.
Proof. revert s; induction n as [|n IH]; intros s; simpl; [|rewrite IH]; reflexivity. Qed.

Lemma map_nth_seq {A : Type} (d : A) (xs : list A) :
  map (fun i => nth i xs d) (seq 0 (length xs)) = xs.
Proof.
  induction xs as [|x xs IH]; [reflexivity|].
  cbn [length seq map nth]. f_equal.
  rewrite <- seq_shift, map_map. exact IH.
Qed.

Lemma broadcast_column_fits n p :
  fits n p -> broadcast_column n p = Ok (column_of n p).
Proof.
  unfold column_of. destruct p as [x|xs]; intros H; simpl in H.
  - simpl. now rewrite map_const_seq.
  - unfold broadcast_column.
    destruct (Nat.eqb_spec (length xs) n) as [E|NE].
    + subst n. f_equal. destruct xs as [|x [|y l]].
      * reflexivity.
      * reflexivity.
      * symmetry. apply (map_nth_seq 0 (x :: y :: l)).
    + destruct H as [H|H]; [contradiction|].
      destruct xs as [|x [|y l]]; try discriminate.
      simpl. now rewrite map_const_seq.
Qed.

Lemma set_cell_middle {A : Type} (done : list A) (c v : A) (rest : list A) :
  set_cell (length done) v (done ++ c :: rest) = (done ++ [v]) ++ rest.
Proof.
  induction done as [|d done IH]; simpl; [reflexivity|]. now rewrite IH.
Qed.

Lemma set_parameters_fills (n : nat) (ps : list dist_param)
  (done rest : list (list R)) :
  Forall (fits n) ps ->
  (length ps <= length rest)%nat ->
  set_parameters n (length done) ps (done ++ rest)
  = Ok (done ++ map (column_of n) ps ++ skipn (length ps) rest).
Proof.
  intros Hfit. revert done rest.
  induction Hfit as [|p ps Hp _ IH]; intros done rest Hl.
  - reflexivity.
  - destruct rest as [|c rest]; [simpl in Hl; lia|].
    cbn [set_parameters].
    assert (Hlt : (length done <? length (done ++ c :: rest))%nat = true).
    { apply Nat.ltb_lt. rewrite length_app. simpl. lia. }
    rewrite Hlt, (broadcast_column_fits n p Hp). cbv beta iota delta [bind].
    rewrite set_cell_middle.
    replace (S (length done)) with (length (done ++ [column_of n p]))
      by (rewrite length_app; simpl; lia).
    rewrite IH by (simpl in Hl; lia).
    rewrite <- app_assoc. reflexivity.
Qed.

(** X12.  The matrix that the [logp] of [make_pytensor_logp] hands to the
    network has one column per entry of [params_is_reg] and two more.  With
    parameters that broadcast to the number of rows, and at most two more of
    them than entries of [params_is_reg], the first columns hold the
    parameters in order, zeros where parameters are missing, and the last
    two columns hold the response times and the responses, which overwrite
    the parameters written there. *)
Theorem logp_inputs_columns (params_is_reg : list bool) (data : list row)
  (dist_params : list dist_param) :
  Forall (fits (length data)) dist_params ->
  (length dist_params <= length params_is_reg + 2)%nat ->
  logp_inputs params_is_reg data dist_params
  = Ok (firstn (length params_is_reg)
          (map (column_of (length data)) dist_params
           ++ repeat (repeat 0 (length data))
                (length params_is_reg + 2 - length dist_params))
        ++ [map fst data; map snd data]).
Proof.
  intros Hfit Hl. unfold logp_inputs.
  pose proof (set_parameters_fills (length data) dist_params []
                (repeat (repeat 0 (length data)) (length params_is_reg + 2))
                Hfit) as H.
  cbn [length app] in H. rewrite H by (rewrite repeat_length; exact Hl).
  cbv beta iota delta [bind]. f_equal. f_equal.
  assert (Hskip : forall (x : list R) m k, (k <= m)%nat ->
                    skipn k (repeat x m) = repeat x (m - k)).
  { intros x m k. revert m. induction k as [|k IHk]; intros m Hk.
    - now rewrite Nat.sub_0_r.
    - destruct m as [|m]; [lia|]. simpl. apply IHk. lia. }
  rewrite Hskip by exact Hl.
  rewrite length_app, length_map, repeat_length.
  f_equal. lia.
Qed.

Lemma nth_map_seq {A : Type} (f : nat -> A) (d : A) (n : nat) :
  forall s i, (i < n)%nat -> nth i (map f (seq s n)) d = f (s + i)%nat.
Proof.
  induction n as [|n IH]; intros s i Hi; [lia|].
  destruct i as [|i]; simpl.
  - now rewrite Nat.add_0_r.
  - rewrite IH by lia. f_equal. lia.
Qed.

(** Row [i] of the matrix: the entries of the parameter columns at that
    row, then the response time and the response. *)
Lemma logp_inputs_row (params_is_reg : list bool) (data : list row)
  (dist_params : list dist_param) (i : nat) :
  Forall (fits (length data)) dist_params ->
  length dist_params = length params_is_reg ->
  (i < length data)%nat ->
  exists inputs,
    logp_inputs params_is_reg data dist_params = Ok inputs
    /\ map (fun column => nth i column 0) inputs
       = map (param_at i) dist_params
         ++ [fst (nth i data (0, 0)); snd (nth i data (0, 0))].
Proof.
  intros Hfit Hl Hi. eexists. split.
  - apply logp_inputs_columns; [exact Hfit|lia].
  - rewrite firstn_app, length_map, Hl, Nat.sub_diag. cbn [firstn].
    rewrite app_nil_r, firstn_all2 by (rewrite length_map; lia).
    rewrite map_app, map_map. f_equal.
    + apply map_ext. intros p. unfold column_of.
      now rewrite nth_map_seq by exact Hi.
    + cbn [map]. f_equal; [|f_equal].
      * apply (map_nth fst data (0, 0) i).
      * apply (map_nth snd data (0, 0) i).
Qed.

(** A parameter that [vmap] accepts under its flag fits a column, and the
    value handed to [logp] at trial [i] is the entry of the column. *)
Lemma vmap_argument_fits (n : nat) (is_regression : bool) (p : dist_param)
  (i : nat) (x : R) :
  vmap_argument n (if is_regression then Some 0%nat else None) p i = Some x ->
  fits n p /\ param_at i p = x.
Proof.
  destruct is_regression, p as [y|xs]; simpl; try discriminate.
  - destruct (Nat.eqb_spec (length xs) n) as [E|_]; [|discriminate].
    intros H. split; [now left|].
    destruct xs as [|x0 [|x1 xs]].
    + destruct i; discriminate.
    + destruct i as [|[|i]]; simpl in H; try discriminate.
      now injection H.
    + now apply nth_error_nth.
  - intros H. now injection H.
Qed.

Lemma vmap_arguments_fit (n : nat) (params_is_reg : list bool)
  (dist_params : list dist_param) (i : nat) (xs : list R) :
  vmap_arguments n
    (map (fun is_regression : bool => if is_regression then Some 0%nat else None)
       params_is_reg) dist_params i = Some xs ->
  Forall (fits n) dist_params
  /\ length dist_params = length params_is_reg
  /\ map (param_at i) dist_params = xs.
Proof.
  revert dist_params xs.
  induction params_is_reg as [|b bs IH]; intros [|p ps] xs; simpl;
    try discriminate.
  - intros H. injection H as <-. repeat split. constructor.
  - destruct (vmap_argument n (if b then Some 0%nat else None) p i) as [x|] eqn:Ex;
      [|discriminate].
    destruct (vmap_arguments n _ ps i) as [ys|] eqn:Eys; [|discriminate].
    intros H. injection H as <-.
    destruct (vmap_argument_fits n b p i x Ex) as [Hf Hx].
    destruct (IH ps ys Eys) as [Hfs [Hl Hm]].
    split; [now constructor|]. split; [now rewrite Hl|].
    now rewrite Hx, Hm.
Qed.

(** X13.  Whenever the vectorised JAX likelihood builds an [input_vector]
    for trial [i] (every parameter flagged as a regression is a vector of
    one entry per trial, every other one a scalar, one flag for each), the
    pytensor likelihood on the same flags, data and parameters builds its
    input matrix, and row [i] of that matrix is this [input_vector]: the
    parameters of the trial, then its response time and response. *)
Theorem logp_inputs_match_vmap (params_is_reg : list bool) (data : list row)
  (dist_params : list dist_param) (i : nat) (input : list R) :
  vmap_input_vector params_is_reg data dist_params i = Some input ->
  exists inputs,
    logp_inputs params_is_reg data dist_params = Ok inputs
    /\ map (fun column => nth i column 0) inputs = input.
Proof.
  unfold vmap_input_vector, in_axes.
  destruct (nth_error data i) as [x|] eqn:Ex; [|discriminate].
  destruct (vmap_arguments (length data) _ dist_params i) as [ps|] eqn:Eps;
    [|discriminate].
  intros H. injection H as <-.
  destruct (vmap_arguments_fit _ _ _ _ _ Eps) as [Hfit [Hl Hm]].
  assert (Hi : (i < length data)%nat).
  { apply nth_error_Some. congruence. }
  destruct (logp_inputs_row params_is_reg data dist_params i Hfit Hl Hi)
    as [inputs [Hin Hrow]].
  exists inputs. split; [exact Hin|].
  rewrite Hrow, Hm. unfold input_vector.
  now rewrite (nth_error_nth data i (0, 0) Ex).
Qed.

Lemma logp_inputs_columns_witness :
  logp_inputs [false; true] [(1, 1); (2, -1)] [Scalar 3; Vector [4; 5]]
  = Ok (firstn (length [false; true])
          (map (column_of (length [(1, 1); (2, -1)])) [Scalar 3; Vector [4; 5]]
           ++ repeat (repeat 0 (length [(1, 1); (2, -1)]))
                (length [false; true] + 2 - length [Scalar 3; Vector [4; 5]]))
        ++ [map fst [(1, 1); (2, -1)]; map snd [(1, 1); (2, -1)]]).
Proof.
  apply (logp_inputs_columns [false; true] [(1, 1); (2, -1)]
           [Scalar 3; Vector [4; 5]]).
  - repeat constructor.
  - simpl. lia.
Defined.

End NetworkInputs.

(** ** utils.py: [_split_array] *)

Section Splitting.

Import Utils.

Lemma total_app s1 s2 : total (s1 ++ s2) = (total s1 + total s2)%Z.
Proof. induction s1 as [|x s1 IH]; simpl; [reflexivity|]. rewrite IH. lia. Qed.

Lemma total_repeat x n : total (repeat x n) = (Z.of_nat n * x)%Z.
Proof. induction n as [|n IH]; [reflexivity|]. cbn [repeat total fold_right]. fold (total (repeat x n)). rewrite IH. lia. Qed.

Lemma total_nonneg sizes : Forall (fun s => 0 <= s)%Z sizes -> (0 <= total sizes)%Z.
Proof. induction 1 as [|s l Hs _ IH]; simpl; [lia|]. fold (total l). lia. Qed.

Lemma slices_length {A : Type} (sizes : list Z) (ary : list A) :
  length (slices sizes ary) = length sizes.
Proof. revert ary; induction sizes as [|s sizes IH]; intros ary; simpl; auto. Qed.

Lemma slices_concat {A : Type} (sizes : list Z) (ary : list A) :
  Forall (fun s => 0 <= s)%Z sizes ->
  total sizes = Z.of_nat (length ary) ->
  concat (slices sizes ary) = ary.
Proof.
  intros Hs. revert ary. induction Hs as [|s sizes Hs0 Hs IH]; intros ary Ht.
  - simpl in Ht. destruct ary; [reflexivity|simpl in Ht; lia].
  - cbn [slices concat]. cbn [total fold_right] in Ht. fold (total sizes) in Ht.
    pose proof (total_nonneg sizes Hs) as Hsum.
    rewrite IH.
    + apply firstn_skipn.
    + rewrite length_skipn. lia.
Qed.

Lemma slices_sizes {A : Type} (sizes : list Z) (ary : list A) :
  Forall (fun s => 0 <= s)%Z sizes ->
  (total sizes <= Z.of_nat (length ary))%Z ->
  map (fun c => Z.of_nat (length c)) (slices sizes ary) = sizes.
Proof.
  intros Hs. revert ary. induction Hs as [|s sizes Hs0 Hs IH]; intros ary Ht.
  - reflexivity.
  - cbn [slices map]. cbn [total fold_right] in Ht. fold (total sizes) in Ht.
    pose proof (total_nonneg sizes Hs) as Hsum.
    rewrite IH by (rewrite length_skipn; lia).
    f_equal. rewrite length_firstn. lia.
Qed.

Lemma section_sizes_facts (Ntotal Nsections : Z) :
  (0 < Nsections)%Z -> (0 <= Ntotal)%Z ->
  let q := (Ntotal / Nsections)%Z in
  length (section_sizes Ntotal Nsections) = Z.to_nat Nsections
  /\ total (section_sizes Ntotal Nsections) = Ntotal
  /\ Forall (fun s => q <= s <= q + 1 /\ (s = q + 1 -> Ntotal mod Nsections <> 0))%Z
       (section_sizes Ntotal Nsections).
Proof.
  intros HN HT q. unfold section_sizes. fold q.
  pose proof (Z.mod_pos_bound Ntotal Nsections HN) as Hm.
  pose proof (Z.div_mod Ntotal Nsections ltac:(lia)) as Hdm. fold q in Hdm.
  split; [|split].
  - rewrite length_app, !repeat_length. lia.
  - rewrite total_app, !total_repeat. rewrite !Z2Nat.id by lia. lia.
  - apply Forall_app. split.
    + destruct (Z.eq_dec (Ntotal mod Nsections) 0) as [E|NE].
      * rewrite E. constructor.
      * apply Forall_forall. intros s Hs. apply repeat_spec in Hs. subst s.
        split; [lia|]. intros _. exact NE.
    + apply Forall_forall. intros s Hs. apply repeat_spec in Hs. subst s.
      split; lia.
Qed.

Section SplitArrayFacts.

Variable A : Type.
Variable astype_int : A -> Z.

Lemma num_splits_facts (L d : Z) :
  (1 <= L)%Z -> (1 <= d)%Z ->
  let N := (L / d + (if negb (L mod d =? 0) then 1 else 0))%Z in
  (1 <= N <= L /\ L <= N * d /\ (N - 1) * d < L)%Z.
Proof.
  intros HL Hd N. subst N.
  pose proof (Z.mod_pos_bound L d ltac:(lia)) as Hm.
  pose proof (Z.div_mod L d ltac:(lia)) as Hdm.
  assert (Hq : (0 <= L / d)%Z) by (apply Z.div_pos; lia).
  destruct (Z.eqb_spec (L mod d) 0) as [E|NE]; simpl; nia.
Qed.

Lemma split_array_returns (data : list A) (divisor : Z) :
  (1 <= divisor)%Z -> data <> [] ->
  let L := Z.of_nat (length data) in
  let N := (L / divisor + (if negb (L mod divisor =? 0) then 1 else 0))%Z in
  _split_array A astype_int data divisor
  = Returns (map (map astype_int) (slices (section_sizes L N) data))
  /\ (1 <= N <= L /\ L <= N * divisor /\ (N - 1) * divisor < L)%Z.
Proof.
  intros Hd Hne L N.
  assert (HL : (1 <= L)%Z).
  { subst L. destruct data; [congruence|]. simpl length. lia. }
  pose proof (num_splits_facts L divisor HL Hd) as HN. cbv zeta in HN.
  split; [|exact HN].
  unfold _split_array.
  destruct (Z.eqb_spec divisor 0) as [E|_]; [lia|].
  unfold array_split.
  match goal with |- context [(?n <=? 0)%Z] =>
    destruct (Z.leb_spec n 0) as [H|_] end; [|reflexivity].
  subst L. lia.
Qed.

(** X14.  On non-empty data and a divisor of at least one, [_split_array]
    returns chunks whose concatenation is the data cast to [int], in order,
    and their number is the least [n] with [n * divisor >= len(data)]. *)
Theorem split_array_round_trip (data : list A) (divisor : Z) :
  (1 <= divisor)%Z -> data <> [] ->
  exists chunks,
    _split_array A astype_int data divisor = Returns chunks
    /\ concat chunks = map astype_int data
    /\ (Z.of_nat (length data) <= Z.of_nat (length chunks) * divisor
        /\ (Z.of_nat (length chunks) - 1) * divisor < Z.of_nat (length data))%Z.
Proof.
  intros Hd Hne.
  destruct (split_array_returns data divisor Hd Hne) as [Hr HN].
  cbv zeta in Hr, HN.
  set (L := Z.of_nat (length data)) in *.
  set (N := (L / divisor + (if negb (L mod divisor =? 0) then 1 else 0))%Z) in *.
  destruct (section_sizes_facts L N ltac:(lia) ltac:(lia)) as [Hlen [Htot Hall]].
  eexists. split; [exact Hr|]. split.
  - rewrite <- concat_map. f_equal. apply slices_concat; [|exact Htot].
    eapply Forall_impl; [|exact Hall]. cbv beta. intros s [Hs _].
    assert (0 <= L / N)%Z by (apply Z.div_pos; lia). lia.
  - rewrite length_map, slices_length, Hlen. rewrite Z2Nat.id by lia. lia.
Qed.

(** X15.  Under the same conditions no chunk is empty, none has more than
    [divisor] entries, and the chunks differ in length by at most one. *)
Theorem split_array_chunk_sizes (data : list A) (divisor : Z) :
  (1 <= divisor)%Z -> data <> [] ->
  exists chunks q,
    _split_array A astype_int data divisor = Returns chunks
    /\ Forall (fun c => 1 <= Z.of_nat (length c) <= divisor
                        /\ q <= Z.of_nat (length c) <= q + 1)%Z chunks.
Proof.
  intros Hd Hne.
  destruct (split_array_returns data divisor Hd Hne) as [Hr HN].
  cbv zeta in Hr, HN.
  set (L := Z.of_nat (length data)) in *.
  set (N := (L / divisor + (if negb (L mod divisor =? 0) then 1 else 0))%Z) in *.
  destruct (section_sizes_facts L N ltac:(lia) ltac:(lia)) as [Hlen [Htot Hall]].
  eexists. exists (L / N)%Z. split; [exact Hr|].
  assert (Hsz : map (fun c => Z.of_nat (length c)) (slices (section_sizes L N) data)
                = section_sizes L N).
  { apply slices_sizes; [|fold L; lia].
    eapply Forall_impl; [|exact Hall]. cbv beta. intros s [Hs _].
    assert (0 <= L / N)%Z by (apply Z.div_pos; lia). lia. }
  apply Forall_map.
  assert (Hlens : Forall (fun s => 1 <= s <= divisor /\ L / N <= s <= L / N + 1)%Z
                    (section_sizes L N)).
  { eapply Forall_impl; [|exact Hall]. cbv beta. intros s [Hs Hx].
    pose proof (Z.mod_pos_bound L N ltac:(lia)) as Hm.
    pose proof (Z.div_mod L N ltac:(lia)) as Hdm.
    assert (Hq1 : (1 <= L / N)%Z) by (apply Z.div_le_lower_bound; lia).
    split; [|lia]. split; [lia|].
    destruct (Z.eq_dec s (L / N + 1)) as [E|NE].
    - specialize (Hx E). nia.
    - assert (s = L / N)%Z by lia. nia. }
  rewrite <- Hsz in Hlens. rewrite Forall_map in Hlens.
  eapply Forall_impl; [|exact Hlens]. cbv beta. intros c Hc.
  rewrite length_map. exact Hc.
Qed.

(** X16.  [_split_array] raises [ZeroDivisionError] on a zero divisor,
    and the [ValueError] of [np.array_split] on empty data or a negative
    divisor, where the number of sections is not positive. *)
Theorem split_array_errors (data : list A) (divisor : Z) :
  (divisor = 0%Z -> _split_array A astype_int data divisor = Raises ZeroDivisionError)
  /\ (divisor <> 0%Z -> data = [] \/ (divisor < 0)%Z ->
      _split_array A astype_int data divisor
      = Raises (Builtin (ValueError "number sections must be larger than 0."))).
Proof.
  split.
  - intros ->. reflexivity.
  - intros Hd H. unfold _split_array.
    destruct (Z.eqb_spec divisor 0) as [E|_]; [contradiction|].
    set (L := Z.of_nat (length data)).
    assert (HN : (L / divisor + (if negb (L mod divisor =? 0) then 1 else 0) <= 0)%Z).
    { destruct H as [->|Hneg].
      - subst L. cbn [length Z.of_nat]. rewrite Zdiv_0_l, Zmod_0_l. simpl. lia.
      - assert (HL : (0 <= L)%Z) by (subst L; lia).
        pose proof (Z.mod_neg_bound L divisor Hneg) as Hm.
        pose proof (Z.div_mod L divisor ltac:(lia)) as Hdm.
        destruct (Z.eqb_spec (L mod divisor) 0) as [E|NE]; simpl; nia. }
    unfold array_split.
    match goal with |- context [(?n <=? 0)%Z] =>
      destruct (Z.leb_spec n 0) as [_|Hc] end; [reflexivity|].
    subst L. lia.
Qed.

End SplitArrayFacts.

End Splitting.

(** ** utils.py: [_rearrange_data] *)

Section Rearranging.

Import Utils.

Lemma partition_permutation {A : Type} (f : A -> bool) (l : list A) :
  Permutation l (filter f l ++ filter (fun x => negb (f x)) l).
Proof.
  induction l as [|x l IH]; simpl; [constructor|].
  destruct (f x); simpl.
  - now constructor.
  - now apply Permutation_cons_app.
Qed.

Lemma filter_all {A : Type} (f : A -> bool) (l : list A) :
  Forall (fun x => f x = true) l -> filter f l = l.
Proof.
  induction 1 as [|x l Hx _ IH]; simpl; [reflexivity|]. now rewrite Hx, IH.
Qed.

Lemma filter_none {A : Type} (f : A -> bool) (l : list A) :
  Forall (fun x => f x = false) l -> filter f l = [].
Proof.
  induction 1 as [|x l Hx _ IH]; simpl; [reflexivity|]. now rewrite Hx.
Qed.

Lemma filter_Forall {A : Type} (f : A -> bool) (l : list A) :
  Forall (fun x => f x = true) (filter f l).
Proof. apply Forall_forall. intros x Hx. now apply filter_In in Hx. Qed.

Lemma filter_negb_Forall {A : Type} (f : A -> bool) (l : list A) :
  Forall (fun x => f x = false) (filter (fun x => negb (f x)) l).
Proof.
  apply Forall_forall. intros x Hx. apply filter_In in Hx.
  destruct Hx as [_ Hx]. now apply negb_true_iff in Hx.
Qed.

(** X17.  On a numpy array without columns [_rearrange_data] raises
    [IndexError]; otherwise it returns the same rows in another order, all
    rows whose first entry is [-999.0] before all the others. *)
Theorem rearrange_puts_missing_on_top (data : ndarray) :
  (ncols data = 0%nat -> _rearrange_data data = Raise IndexError)
  /\ (ncols data <> 0%nat ->
      exists top bottom,
        _rearrange_data data
        = Ok {| ncols := ncols data; rows := top ++ bottom |}
        /\ Permutation (rows data) (top ++ bottom)
        /\ Forall (fun r => is_missing r = true) top
        /\ Forall (fun r => is_missing r = false) bottom).
Proof.
  unfold _rearrange_data. split.
  - intros ->. reflexivity.
  - intros H. destruct (Nat.eqb_spec (ncols data) 0) as [E|_]; [contradiction|].
    exists (filter is_missing (rows data)),
           (filter (fun r => negb (is_missing r)) (rows data)).
    split; [reflexivity|]. split; [apply partition_permutation|].
    split; [apply filter_Forall|apply filter_negb_Forall].
Qed.

(** X18.  [_rearrange_data] keeps the order of the missing rows among
    themselves and of the other rows among themselves, rearranging its
    result changes nothing, and an array without missing row is returned as
    it is. *)
Theorem rearrange_is_stable_and_idempotent (data out : ndarray) :
  _rearrange_data data = Ok out ->
  filter is_missing (rows out) = filter is_missing (rows data)
  /\ filter (fun r => negb (is_missing r)) (rows out)
     = filter (fun r => negb (is_missing r)) (rows data)
  /\ _rearrange_data out = Ok out
  /\ (Forall (fun r => is_missing r = false) (rows data) -> out = data).
Proof.
  unfold _rearrange_data.
  destruct (Nat.eqb_spec (ncols data) 0) as [E|NE]; [discriminate|].
  intros H. injection H as <-. cbn [rows ncols].
  destruct (Nat.eqb_spec (ncols data) 0) as [E|_]; [contradiction|].
  set (m := filter is_missing (rows data)).
  set (nm := filter (fun r => negb (is_missing r)) (rows data)).
  assert (Hm : Forall (fun r => is_missing r = true) m) by apply filter_Forall.
  assert (Hnm : Forall (fun r => is_missing r = false) nm)
    by apply filter_negb_Forall.
  assert (Hnm' : Forall (fun r => negb (is_missing r) = true) nm).
  { eapply Forall_impl; [|exact Hnm]. cbv beta. intros r ->. reflexivity. }
  assert (Hm' : Forall (fun r => negb (is_missing r) = false) m).
  { eapply Forall_impl; [|exact Hm]. cbv beta. intros r ->. reflexivity. }
  assert (E1 : filter is_missing (m ++ nm) = m).
  { rewrite filter_app, (filter_all _ m Hm), (filter_none _ nm Hnm).
    apply app_nil_r. }
  assert (E2 : filter (fun r => negb (is_missing r)) (m ++ nm) = nm).
  { rewrite filter_app, (filter_none _ m Hm'), (filter_all _ nm Hnm').
    reflexivity. }
  split; [exact E1|]. split; [exact E2|]. split.
  - now rewrite E1, E2.
  - intros Hall. unfold m, nm.
    rewrite (filter_none _ _ Hall).
    rewrite filter_all.
    + destruct data; reflexivity.
    + eapply Forall_impl; [|exact Hall]. cbv beta. intros r ->. reflexivity.
Qed.

Lemma rearrange_is_stable_and_idempotent_witness :
  _rearrange_data {| ncols := 2;
                     rows := [[-999; 1]; [3; 4]; [-999; 2]] |}
  = Ok {| ncols := 2; rows := [[-999; 1]; [-999; 2]; [3; 4]] |}
  /\ _rearrange_data {| ncols := 2; rows := [[-999; 1]; [-999; 2]; [3; 4]] |}
     = Ok {| ncols := 2; rows := [[-999; 1]; [-999; 2]; [3; 4]] |}.
Proof.
  assert (H : _rearrange_data {| ncols := 2;
                                 rows := [[-999; 1]; [3; 4]; [-999; 2]] |}
              = Ok {| ncols := 2; rows := [[-999; 1]; [-999; 2]; [3; 4]] |}).
  { unfold _rearrange_data. simpl.
    destruct (Req_dec_T (-999) (-999)) as [_|H]; [|contradiction].
    destruct (Req_dec_T 3 (-999)) as [H|_]; [lra|]. reflexivity. }
  split; [exact H|].
  exact (proj1 (proj2 (proj2 (rearrange_is_stable_and_idempotent _ _ H)))).
Defined.

End Rearranging.

(** ** utils.py: [_generate_random_indices] *)

Section RandomIndices.

Import Utils.

Lemma py_int_bounds (x : R) (n : Z) :
  0 <= x <= IZR n -> (0 <= py_int x <= n)%Z.
Proof.
  intros [H0 Hn]. unfold py_int.
  destruct (Rle_dec 0 x) as [_|H]; [|contradiction].
  pose proof (Zfloor_bound x) as [Hl Hu]. split.
  - apply (Zfloor_lub 0 x). exact H0.
  - apply le_IZR. lra.
Qed.

Lemma proportion_size (x : R) (n_draws : Z) :
  (1 <= n_draws)%Z -> 0 < x <= 1 ->
  (1 <= Z.max (py_int (x * IZR n_draws)) 1 <= n_draws)%Z.
Proof.
  intros Hn [Hx0 Hx1].
  assert (Hn' : 1 <= IZR n_draws) by (apply IZR_le in Hn; exact Hn).
  pose proof (py_int_bounds (x * IZR n_draws) n_draws) as H.
  assert (0 <= x * IZR n_draws <= IZR n_draws) by nra.
  specialize (H H0). lia.
Qed.

(** X19.  Whenever [_generate_random_indices] draws, it draws from
    [n_draws] a number of indices between [1] and [n_draws]: the draw
    without replacement is always possible. *)
Theorem random_indices_size_in_range
  (n_samples : n_samples_arg) (n_draws n size : Z) :
  _generate_random_indices n_samples n_draws = Ok (Some (random_choice n size)) ->
  n = n_draws /\ (1 <= size <= n_draws)%Z.
Proof.
  unfold _generate_random_indices.
  destruct (Z.leb_spec n_draws 0) as [|Hn]; [discriminate|].
  destruct n_samples as [|k|x]; [discriminate| |].
  - destruct (Z.gtb_spec k n_draws) as [|Hk]; [discriminate|].
    destruct (Z.ltb_spec k 1) as [|Hk1]; [discriminate|].
    intros H. injection H as <- <-. lia.
  - unfold pt_gt at 1. destruct (Rgt_dec x (IZR n_draws)) as [|Hx]; [discriminate|].
    unfold pt_le, pt_gt.
    destruct (Rle_dec x 0) as [|Hx0]; [discriminate|].
    destruct (Rgt_dec x 1) as [|Hx1]; [discriminate|]. simpl orb. cbv iota.
    pose proof (proportion_size x n_draws ltac:(lia) ltac:(lra)) as Hs.
    destruct (Z.ltb_spec (Z.max (py_int (x * IZR n_draws)) 1) 1) as [|_];
      [discriminate|].
    intros H. injection H as <- <-. lia.
Qed.

(** X20.  The two ends of a float [n_samples] in (0, 1], where the size of
    the draw does not depend on how the product [n_samples * n_draws] is
    rounded: a proportion too small for a whole draw draws one index, and
    [1.0] draws all [n_draws] (for an [n_draws] that a float holds
    exactly). *)
Theorem random_indices_proportion_ends (x : R) (n_draws : Z) :
  (1 <= n_draws)%Z -> 0 < x <= 1 ->
  (x * IZR n_draws < 1 ->
   _generate_random_indices (FloatArg x) n_draws
   = Ok (Some (random_choice n_draws 1)))
  /\ (x = 1 -> (n_draws <= 2 ^ 53)%Z ->
      _generate_random_indices (FloatArg x) n_draws
      = Ok (Some (random_choice n_draws n_draws))).
Proof.
  intros Hn [Hx0 Hx1].
  assert (Hn' : 1 <= IZR n_draws) by (apply IZR_le in Hn; exact Hn).
  assert (Hmain : _generate_random_indices (FloatArg x) n_draws
    = Ok (Some (random_choice n_draws (Z.max (Zfloor (x * IZR n_draws)) 1)))).
  { unfold _generate_random_indices.
    destruct (Z.leb_spec n_draws 0) as [|_]; [lia|].
    rewrite (pt_gt_false x (IZR n_draws)) by lra.
    rewrite pt_le_false by lra. rewrite pt_gt_false by lra. simpl orb. cbv iota.
    pose proof (proportion_size x n_draws Hn (conj Hx0 Hx1)) as Hs.
    destruct (Z.ltb_spec (Z.max (py_int (x * IZR n_draws)) 1) 1) as [|_]; [lia|].
    unfold py_int. destruct (Rle_dec 0 (x * IZR n_draws)) as [_|H]; [reflexivity|].
    exfalso. apply H. nra. }
  split.
  - intros Hsmall. rewrite Hmain. do 3 f_equal.
    assert (Zfloor (x * IZR n_draws) = 0%Z).
    { apply Zfloor_eq. simpl. split; nra. }
    lia.
  - intros -> _. rewrite Hmain. do 3 f_equal.
    replace (1 * IZR n_draws) with (IZR n_draws) by ring.
    assert (Zfloor (IZR n_draws) = n_draws).
    { apply Zfloor_eq. lra. }
    lia.
Qed.

(** X21.  [n_draws <= 0] raises before [n_samples] is looked at.  The test
    [n_samples > n_draws] comes before the test of the range: a float above
    [n_draws] returns [None] (the whole data), a float above [1] that does
    not exceed [n_draws], or at most [0], raises; an int above [n_draws]
    returns [None] and an int below [1] raises. *)
Theorem random_indices_rejections (n_samples : n_samples_arg) (n_draws : Z) :
  ((n_draws <= 0)%Z ->
   _generate_random_indices n_samples n_draws
   = Raise (ValueError "n_draws must be >= 1."))
  /\ ((1 <= n_draws)%Z ->
      forall x, n_samples = FloatArg x ->
        (x > IZR n_draws -> _generate_random_indices n_samples n_draws = Ok None)
        /\ (1 < x <= IZR n_draws \/ x <= 0 ->
            _generate_random_indices n_samples n_draws
            = Raise (ValueError "When a float, n_samples must be between 0 and 1.")))
  /\ ((1 <= n_draws)%Z ->
      forall k, n_samples = IntArg k ->
        ((k > n_draws)%Z -> _generate_random_indices n_samples n_draws = Ok None)
        /\ ((k < 1)%Z ->
            _generate_random_indices n_samples n_draws
            = Raise (ValueError "When an int, n_samples must be >= 1."))).
Proof.
  unfold _generate_random_indices. split; [|split].
  - intros H. destruct (Z.leb_spec n_draws 0) as [_|]; [reflexivity|lia].
  - intros Hn x ->. destruct (Z.leb_spec n_draws 0) as [|_]; [lia|].
    assert (Hn' : 1 <= IZR n_draws) by (apply IZR_le in Hn; exact Hn).
    split.
    + intros Hx. now rewrite pt_gt_true.
    + intros Hx. rewrite (pt_gt_false x (IZR n_draws)) by lra.
      destruct Hx as [Hx|Hx].
      * rewrite (pt_gt_true x 1) by lra. now rewrite orb_true_r.
      * now rewrite pt_le_true.
  - intros Hn k ->. destruct (Z.leb_spec n_draws 0) as [|_]; [lia|].
    split.
    + intros Hk. destruct (Z.gtb_spec k n_draws) as [_|]; [reflexivity|lia].
    + intros Hk. destruct (Z.gtb_spec k n_draws) as [|_]; [lia|].
      destruct (Z.ltb_spec k 1) as [_|]; [reflexivity|lia].
Qed.

Lemma random_indices_size_in_range_witness :
  2%Z = 2%Z /\ (1 <= 1 <= 2)%Z.
Proof.
  apply (random_indices_size_in_range (IntArg 1) 2 2 1). reflexivity.
Defined.

Lemma random_indices_proportion_ends_witness :
  _generate_random_indices (FloatArg (1 / 20)) 10
  = Ok (Some (random_choice 10 1))
  /\ _generate_random_indices (FloatArg 1) 10
     = Ok (Some (random_choice 10 10)).
Proof.
  split.
  - apply (random_indices_proportion_ends (1 / 20) 10); [lia|lra|simpl; lra].
  - apply (random_indices_proportion_ends 1 10); [lia|lra|reflexivity|lia].
Defined.

End RandomIndices.

(** ** The further theorems at concrete inputs *)

Lemma choice_flip_invariance_sdv_witness :
  Analytical.logp_ddm_sdv (map flip_choice [(1, 1)]) (- 1) 1 (1 - 1 / 2) 0
    (Analytical.TensorVariable 1) 1 1 (1 / 10)
  = Analytical.logp_ddm_sdv [(1, 1)] 1 1 (1 / 2) 0
      (Analytical.TensorVariable 1) 1 1 (1 / 10).
Proof.
  apply (choice_flip_invariance_sdv 1 1 (1 / 2) 0 (Analytical.TensorVariable 1)
           1 1 (1 / 10) [(1, 1)]).
  - constructor; [simpl; lra|constructor].
  - lra.
Defined.

Lemma log_pdf_sv_choice_flip_witness :
  Aesara.log_pdf_sv Aesara.decision_func (map Ropp [1; -2]) (- 1) 0 1
    (1 - 1 / 4) 0 1 1
  = Aesara.log_pdf_sv Aesara.decision_func [1; -2] 1 0 1 (1 / 4) 0 1 1.
Proof.
  apply (log_pdf_sv_choice_flip 1 0 1 (1 / 4) 0 1 1 Aesara.decision_func [1; -2]).
  repeat constructor; lra.
Defined.

Lemma logp_inputs_match_vmap_witness :
  exists inputs,
    Lan.logp_inputs [false; true] [(1, 1); (2, -1)]
      [Lan.Scalar 3; Lan.Vector [4; 5]] = Ok inputs
    /\ map (fun column => nth 1 column 0) inputs = [3; 5; 2; -1].
Proof.
  apply (logp_inputs_match_vmap [false; true] [(1, 1); (2, -1)]
           [Lan.Scalar 3; Lan.Vector [4; 5]] 1 [3; 5; 2; -1]).
  reflexivity.
Defined.

Lemma split_array_round_trip_witness :
  exists chunks,
    Utils._split_array Z (fun x => x) [1; 2; 3; 4; 5]%Z 2 = Utils.Returns chunks
    /\ concat chunks = map (fun x => x) [1; 2; 3; 4; 5]%Z
    /\ (Z.of_nat (length [1; 2; 3; 4; 5]%Z) <= Z.of_nat (length chunks) * 2
        /\ (Z.of_nat (length chunks) - 1) * 2
           < Z.of_nat (length [1; 2; 3; 4; 5]%Z))%Z.
Proof.
  apply (split_array_round_trip Z (fun x => x) [1; 2; 3; 4; 5]%Z 2);
    [lia|discriminate].
Defined.

Lemma split_array_chunk_sizes_witness :
  exists chunks q,
    Utils._split_array Z (fun x => x) [1; 2; 3; 4; 5]%Z 2 = Utils.Returns chunks
    /\ Forall (fun c => 1 <= Z.of_nat (length c) <= 2
                        /\ q <= Z.of_nat (length c) <= q + 1)%Z chunks.
Proof.
  apply (split_array_chunk_sizes Z (fun x => x) [1; 2; 3; 4; 5]%Z 2);
    [lia|discriminate].
Defined.
